(** * Scoring and valuation engine of the motorcycle inspection server

    Shallow embedding of [calculateInspectionScores], the eight category
    scorers and [calculateMarketValuation] (server routes file, lines
    187-404), followed by the properties the specification states about
    them.

    Modelling conventions.
    - A JavaScript [number] is a type [num] with the operations the engine
      uses ([JSNumber]).  Two instances are given: [Exact], arithmetic on
      rationals, in which the general laws are proved, and [Binary64],
      IEEE 754 double precision on the kernel's primitive floats, on
      which every concrete evaluation is replayed bit for bit.
    - A string is a sequence of code units below 256 (Latin-1).
    - An object literal used as a lookup table is the list of its own
      keys; names inherited from the prototype are not part of the model.
    - [new Date()] is an argument [now : Date]. *)

From Stdlib Require Import ZArith QArith Qround Qminmax Lqa Lia.
From Stdlib Require Import String Ascii List Bool.
From Stdlib Require Import PrimFloat SpecFloat FloatOps Uint63.
Import ListNotations.

Set Implicit Arguments.

(** ** JavaScript values used by the engine *)

Module JS.

(** *** Strings *)

(** [String.prototype.toLowerCase] on one Latin-1 code unit: A-Z and
    the accented capitals U+00C0..U+00DE (the sign U+00D7 apart) move
    up by 32. *)
Definition lowerChar (c : ascii) : ascii :=
  let n := nat_of_ascii c in
  if ((65 <=? n) && (n <=? 90)
      || (192 <=? n) && (n <=? 222) && negb (n =? 215))%nat
  then ascii_of_nat (n + 32)
  else c.

Fixpoint toLowerCase (s : string) : string :=
  match s with
  | EmptyString => EmptyString
  | String c s' => String (lowerChar c) (toLowerCase s')
  end.

(** The property key an optional string denotes: [undefined] is
    converted to the key ["undefined"]. *)
Definition propertyKey (s : option string) : string :=
  match s with
  | Some k => k
  | None => "undefined"%string
  end.

(** [s?.toLowerCase()] *)
Definition optLowerCase (s : option string) : option string :=
  option_map toLowerCase s.

(** *** Object literals as lookup tables *)

Definition object (V : Type) : Type := list (string * V).

Fixpoint get {V : Type} (o : object V) (k : string) : option V :=
  match o with
  | [] => None
  | (k', v) :: o' => if String.eqb k k' then Some v else get o' k
  end.

(** *** Dates: the local-time fields of a [Date] object *)

Record Date : Type := mkDate {
  getFullYear : Z;
  getMonth : Z;
  getDate : Z
}.

(** *** Numbers *)

Class JSNumber (num : Type) : Type := {
  lit : Q -> num;                  (* a decimal literal of the source *)
  add : num -> num -> num;
  sub : num -> num -> num;
  mul : num -> num -> num;
  div : num -> num -> num;
  lt : num -> num -> bool;
  Math_max : num -> num -> num;
  Math_min : num -> num -> num;
  Math_round : num -> num
}.

(** [x || d] on the result of a numeric table lookup: a missing entry
    and the falsy entry 0 both give [d]. *)
Definition orElse {num : Type} `{JSNumber num}
    (x : option Q) (d : Q) : num :=
  match x with
  | Some q => if Qeq_bool q 0 then lit d else lit q
  | None => lit d
  end.

(** **** Exact instance *)

Definition Qlt_bool (x y : Q) : bool := negb (Qle_bool y x).

(** [Math.round]: the nearest integer, halves towards plus infinity. *)
Definition Qround_half_up (x : Q) : Q := inject_Z (Qfloor (x + (1 # 2))).

#[export] Instance Exact : JSNumber Q := {
  lit := fun q => q;
  add := Qplus;
  sub := Qminus;
  mul := Qmult;
  div := Qdiv;
  lt := Qlt_bool;
  Math_max := Qmax;
  Math_min := Qmin;
  Math_round := Qround_half_up
}.

(** **** Binary64 instance *)

(** An integer below 2^53 in magnitude as a double. *)
Definition float_of_Z (z : Z) : float :=
  match z with
  | Z0 => PrimFloat.zero
  | Zpos _ => PrimFloat.of_uint63 (Uint63.of_Z z)
  | Zneg p => PrimFloat.opp (PrimFloat.of_uint63 (Uint63.of_Z (Zpos p)))
  end.

(** The double nearest to a decimal literal: numerator and denominator
    are exact doubles and division rounds correctly. *)
Definition float_lit (q : Q) : float :=
  PrimFloat.div (float_of_Z (Qnum q)) (float_of_Z (Zpos (Qden q))).

Definition is_neg_zero (x : float) : bool :=
  PrimFloat.is_zero x && PrimFloat.get_sign x.

(** [Math.max]: NaN if either argument is, and +0 above -0. *)
Definition float_max (x y : float) : float :=
  if PrimFloat.is_nan x then x
  else if PrimFloat.is_nan y then y
  else if PrimFloat.ltb x y then y
  else if PrimFloat.ltb y x then x
  else if is_neg_zero x then y else x.

(** [Math.min]: NaN if either argument is, and -0 below +0. *)
Definition float_min (x y : float) : float :=
  if PrimFloat.is_nan x then x
  else if PrimFloat.is_nan y then y
  else if PrimFloat.ltb x y then x
  else if PrimFloat.ltb y x then y
  else if is_neg_zero x then x else y.

(** [Math.round] on a double: floor (x + 1/2) computed exactly on the
    mantissa; integers, infinities and NaN are returned unchanged, and
    a negative argument that rounds to zero gives -0. *)
Definition float_round (x : float) : float :=
  match Prim2SF x with
  | S754_finite s m e =>
      if (0 <=? e)%Z then x
      else
        let q := cond_Zopp s (Zpos m) in
        let n := ((2 * q + 2 ^ (- e)) / 2 ^ (- e + 1))%Z in
        if (n =? 0)%Z
        then (if s then PrimFloat.neg_zero else PrimFloat.zero)
        else float_of_Z n
  | _ => x
  end.

#[export] Instance Binary64 : JSNumber float := {
  lit := float_lit;
  add := PrimFloat.add;
  sub := PrimFloat.sub;
  mul := PrimFloat.mul;
  div := PrimFloat.div;
  lt := PrimFloat.ltb;
  Math_max := float_max;
  Math_min := float_min;
  Math_round := float_round
}.

End JS.

Import JS.

Declare Scope js_scope.
Delimit Scope js_scope with js.
Notation "x + y" := (add x y) : js_scope.
Notation "x - y" := (sub x y) : js_scope.
Notation "x * y" := (mul x y) : js_scope.
Notation "x / y" := (div x y) : js_scope.
Notation "x <? y" := (lt x y) : js_scope.
Notation "x === y" := (String.eqb x y) (at level 70, no associativity) : js_scope.

(** ** The inspection payload *)

Module EngineData.
Record t : Type := mk {
  oilLeaks : string;
  smoke : string;
  abnormalNoise : bool;
  hardStart : bool;
  overheating : bool
}.
End EngineData.

Module FrameData.
Record t : Type := mk {
  cracks : bool;
  rust : bool;
  bends : bool;
  repaintMarks : bool
}.
End FrameData.

Module SuspensionData.
Record t : Type := mk {
  leakage : bool;
  stiffness : bool;
  abnormalSound : bool
}.
End SuspensionData.

Module BrakesData.
Record t (num : Type) : Type := mk {
  padRemaining : num;
  discWarp : bool;
  fluidLeak : bool;
  absStatus : bool
}.
End BrakesData.

Module TiresData.
Record t (num : Type) : Type := mk {
  treadRemaining : num;
  cracks : bool;
  mismatchedPair : bool;
  ageOver5Years : bool
}.
End TiresData.

Module ElectricalsData.
Record t : Type := mk {
  lights : bool;
  indicators : bool;
  horn : bool;
  starter : bool;
  batteryCondition : string
}.
End ElectricalsData.

Module BodyData.
Record t (num : Type) : Type := mk {
  minorScratches : num;
  bigScratches : num;
  smallDents : num;
  bigDents : num;
  cracks : bool;
  repaintPanels : bool;
  fairingCondition : string
}.
End BodyData.

Module DocumentsData.
Record t : Type := mk {
  registration : bool;
  importPapers : bool;
  serviceRecords : bool
}.
End DocumentsData.

(** The request body of [POST /api/inspections], as far as the engine
    reads it. *)
Record InspectionData (num : Type) : Type := mkInspectionData {
  make : option string;
  model : option string;
  year : num;
  engineData : EngineData.t;
  frameData : FrameData.t;
  suspensionData : SuspensionData.t;
  brakesData : BrakesData.t num;
  tiresData : TiresData.t num;
  electricalsData : ElectricalsData.t;
  bodyData : BodyData.t num;
  documentsData : DocumentsData.t
}.

(** The shape of the [weights] object of [calculateInspectionScores]. *)
Module Weights.
Record t : Type := mk {
  engine : Q;
  frame : Q;
  suspension : Q;
  brakes : Q;
  tires : Q;
  electricals : Q;
  body : Q;
  documents : Q
}.
End Weights.

(** The object [calculateInspectionScores] returns. *)
Record Scores (num : Type) : Type := mkScores {
  engineScore : num;
  frameScore : num;
  suspensionScore : num;
  brakesScore : num;
  tiresScore : num;
  electricalsScore : num;
  bodyScore : num;
  documentsScore : num;
  finalScore : num
}.

(** The object [calculateMarketValuation] returns. *)
Record Valuation (num : Type) : Type := mkValuation {
  marketBaseline : num;
  estimatedValue : num
}.

(** ** The engine *)

Section Engine.

Context {num : Type} `{JSNumber num}.

Local Open Scope string_scope.
Local Open Scope js_scope.

(** lines 234-246 *)
Definition calculateEngineScore (engineData : EngineData.t) : num :=
  let score := lit 10 in
  let score := if EngineData.oilLeaks engineData === "minor"
               then score - lit 0.5 else score in
  let score := if EngineData.oilLeaks engineData === "major"
               then score - lit 1.5 else score in
  let score := if EngineData.smoke engineData === "light"
               then score - lit 0.8 else score in
  let score := if EngineData.smoke engineData === "heavy"
               then score - lit 2.0 else score in
  let score := if EngineData.abnormalNoise engineData
               then score - lit 1.0 else score in
  let score := if EngineData.hardStart engineData
               then score - lit 0.7 else score in
  let score := if EngineData.overheating engineData
               then score - lit 1.5 else score in
  Math_max (lit 0) score.

(** lines 248-257 *)
Definition calculateFrameScore (frameData : FrameData.t) : num :=
  let score := lit 10 in
  let score := if FrameData.cracks frameData
               then score - lit 3.0 else score in
  let score := if FrameData.rust frameData
               then score - lit 1.5 else score in
  let score := if FrameData.bends frameData
               then score - lit 2.5 else score in
  let score := if FrameData.repaintMarks frameData
               then score - lit 0.5 else score in
  Math_max (lit 0) score.

(** lines 259-267 *)
Definition calculateSuspensionScore
    (suspensionData : SuspensionData.t) : num :=
  let score := lit 10 in
  let score := if SuspensionData.leakage suspensionData
               then score - lit 2.0 else score in
  let score := if SuspensionData.stiffness suspensionData
               then score - lit 1.5 else score in
  let score := if SuspensionData.abnormalSound suspensionData
               then score - lit 1.0 else score in
  Math_max (lit 0) score.

(** lines 269-282 *)
Definition calculateBrakesScore (brakesData : BrakesData.t num) : num :=
  let score := lit 10 in
  let padCondition := BrakesData.padRemaining brakesData / lit 100 in
  let score := if padCondition <? lit 0.3 then score - lit 2.0
               else if padCondition <? lit 0.5 then score - lit 1.0
               else if padCondition <? lit 0.7 then score - lit 0.5
               else score in
  let score := if BrakesData.discWarp brakesData
               then score - lit 1.5 else score in
  let score := if BrakesData.fluidLeak brakesData
               then score - lit 1.0 else score in
  let score := if negb (BrakesData.absStatus brakesData)
               then score - lit 0.5 else score in
  Math_max (lit 0) score.

(** lines 284-297 *)
Definition calculateTiresScore (tiresData : TiresData.t num) : num :=
  let score := lit 10 in
  let treadCondition := TiresData.treadRemaining tiresData / lit 100 in
  let score := if treadCondition <? lit 0.3 then score - lit 2.5
               else if treadCondition <? lit 0.5 then score - lit 1.5
               else if treadCondition <? lit 0.7 then score - lit 0.7
               else score in
  let score := if TiresData.cracks tiresData
               then score - lit 1.0 else score in
  let score := if TiresData.mismatchedPair tiresData
               then score - lit 0.8 else score in
  let score := if TiresData.ageOver5Years tiresData
               then score - lit 1.2 else score in
  Math_max (lit 0) score.

(** lines 299-311 *)
Definition calculateElectricalsScore
    (electricalsData : ElectricalsData.t) : num :=
  let score := lit 10 in
  let score := if negb (ElectricalsData.lights electricalsData)
               then score - lit 1.5 else score in
  let score := if negb (ElectricalsData.indicators electricalsData)
               then score - lit 1.0 else score in
  let score := if negb (ElectricalsData.horn electricalsData)
               then score - lit 0.5 else score in
  let score := if negb (ElectricalsData.starter electricalsData)
               then score - lit 2.0 else score in
  let score := if ElectricalsData.batteryCondition electricalsData === "fair"
               then score - lit 1.0 else score in
  let score := if ElectricalsData.batteryCondition electricalsData === "poor"
               then score - lit 2.5 else score in
  Math_max (lit 0) score.

(** lines 324-329 *)
Definition fairingConditionPenalties : JS.object Q :=
  [ ("excellent", 0%Q);
    ("good", 0.5%Q);
    ("fair", 1.5%Q);
    ("poor", 3.0%Q) ].

(** lines 313-333 *)
Definition calculateBodyScore (bodyData : BodyData.t num) : num :=
  let score := lit 10 in
  let score := score - BodyData.minorScratches bodyData * lit 0.1 in
  let score := score - BodyData.bigScratches bodyData * lit 0.3 in
  let score := score - BodyData.smallDents bodyData * lit 0.2 in
  let score := score - BodyData.bigDents bodyData * lit 0.5 in
  let score := if BodyData.cracks bodyData
               then score - lit 1.5 else score in
  let score := if BodyData.repaintPanels bodyData
               then score - lit 1.0 else score in
  let score :=
    score - orElse (JS.get fairingConditionPenalties
                           (BodyData.fairingCondition bodyData)) 0 in
  Math_max (lit 0) score.

(** lines 335-343 *)
Definition calculateDocumentsScore
    (documentsData : DocumentsData.t) : num :=
  let score := lit 10 in
  let score := if negb (DocumentsData.registration documentsData)
               then score - lit 4.0 else score in
  let score := if negb (DocumentsData.importPapers documentsData)
               then score - lit 3.0 else score in
  let score := if negb (DocumentsData.serviceRecords documentsData)
               then score - lit 3.0 else score in
  Math_max (lit 0) score.

(** lines 188-197 *)
Definition weights : Weights.t :=
  {| Weights.engine := 40;
     Weights.frame := 15;
     Weights.suspension := 10;
     Weights.brakes := 10;
     Weights.tires := 10;
     Weights.electricals := 5;
     Weights.body := 8;
     Weights.documents := 2 |}.

(** lines 187-232 *)
Definition calculateInspectionScores
    (inspectionData : InspectionData num) : Scores num :=
  let engineScore := calculateEngineScore (engineData inspectionData) in
  let frameScore := calculateFrameScore (frameData inspectionData) in
  let suspensionScore :=
    calculateSuspensionScore (suspensionData inspectionData) in
  let brakesScore := calculateBrakesScore (brakesData inspectionData) in
  let tiresScore := calculateTiresScore (tiresData inspectionData) in
  let electricalsScore :=
    calculateElectricalsScore (electricalsData inspectionData) in
  let bodyScore := calculateBodyScore (bodyData inspectionData) in
  let documentsScore :=
    calculateDocumentsScore (documentsData inspectionData) in
  let finalScore :=
    ( (engineScore * lit (Weights.engine weights)) +
      (frameScore * lit (Weights.frame weights)) +
      (suspensionScore * lit (Weights.suspension weights)) +
      (brakesScore * lit (Weights.brakes weights)) +
      (tiresScore * lit (Weights.tires weights)) +
      (electricalsScore * lit (Weights.electricals weights)) +
      (bodyScore * lit (Weights.body weights)) +
      (documentsScore * lit (Weights.documents weights)) ) / lit 100 in
  {| engineScore := Math_round (engineScore * lit 10) / lit 10;
     frameScore := Math_round (frameScore * lit 10) / lit 10;
     suspensionScore := Math_round (suspensionScore * lit 10) / lit 10;
     brakesScore := Math_round (brakesScore * lit 10) / lit 10;
     tiresScore := Math_round (tiresScore * lit 10) / lit 10;
     electricalsScore := Math_round (electricalsScore * lit 10) / lit 10;
     bodyScore := Math_round (bodyScore * lit 10) / lit 10;
     documentsScore := Math_round (documentsScore * lit 10) / lit 10;
     finalScore := Math_round (finalScore * lit 10) / lit 10 |}.

(** lines 348-386 *)
Definition baselines : JS.object (JS.object Q) :=
  [ ("honda",
      [ ("cd-70", 159900); ("cg-125", 238500); ("pridor", 211900);
        ("cb-125f", 390900); ("cb-150f", 497900) ]);
    ("suzuki",
      [ ("gd-110s", 369900); ("gs-150", 389000); ("gsx-125", 499000);
        ("gr-150", 552900) ]);
    ("yamaha",
      [ ("ybr-125", 471500); ("ybr-125g", 490500); ("yb-125z", 429000) ]);
    ("united",
      [ ("us-70", 111000); ("us-100", 108500); ("us-125", 79500);
        ("us-150", 347500) ]);
    ("road-prince",
      [ ("rp-70", 111000); ("70-passion-plus", 121000);
        ("rp-125", 167000); ("150-wego", 419000); ("rx3", 1100000) ]);
    ("unique",
      [ ("ud-70", 118500); ("125cc", 141000); ("150cc", 285000);
        ("crazer-ud-150", 685000) ]) ]%Q.

(** [baselines[brandKey]?.[modelKey]] *)
Definition tableEntry (brandKey modelKey : string) : option Q :=
  match JS.get baselines brandKey with
  | Some models => JS.get models modelKey
  | None => None
  end.

(** [baselines[make?.toLowerCase()]?.[model?.toLowerCase()]], the
    left operand of line 388 *)
Definition baselineEntry (make model : option string) : option Q :=
  tableEntry (propertyKey (optLowerCase make))
             (propertyKey (optLowerCase model)).

(** line 388: the initial value of [marketBaseline] *)
Definition lookupBaseline (make model : option string) : num :=
  orElse (baselineEntry make model) 200000.

(** lines 391-393, with [now] for [new Date()] *)
Definition depreciationRate (now : Date) (year : num) : num :=
  let currentYear := lit (inject_Z (getFullYear now)) in
  let age := currentYear - year in
  Math_min (age * lit 0.08) (lit 0.5).

(** lines 346-404 *)
Definition calculateMarketValuation (now : Date)
    (make model : option string) (year finalScore : num)
    : Valuation num :=
  let marketBaseline := lookupBaseline make model in
  let depreciationRate := depreciationRate now year in
  let marketBaseline := marketBaseline * (lit 1 - depreciationRate) in
  let conditionMultiplier := finalScore / lit 10 in
  let estimatedValue := marketBaseline * conditionMultiplier in
  {| marketBaseline := Math_round marketBaseline;
     estimatedValue := Math_round estimatedValue |}.

(** lines 96-100 of the [POST /api/inspections] handler: the scores of
    the request body and the valuation computed from its final score *)
Definition evaluateInspection (now : Date)
    (body : InspectionData num) : Scores num * Valuation num :=
  let scores := calculateInspectionScores body in
  let valuation :=
    calculateMarketValuation now (make body) (model body) (year body)
                             (finalScore scores) in
  (scores, valuation).

End Engine.

(** ** Sample observations *)

Module Sample.

Local Open Scope string_scope.

Definition engineClear : EngineData.t :=
  EngineData.mk "none" "none" false false false.

Definition engineMajorLeak : EngineData.t :=
  EngineData.mk "major" "none" false false false.

Definition frameClear : FrameData.t :=
  FrameData.mk false false false false.

Definition suspensionClear : SuspensionData.t :=
  SuspensionData.mk false false false.

Definition electricalsClear : ElectricalsData.t :=
  ElectricalsData.mk true true true true "good".

Definition documentsClear : DocumentsData.t :=
  DocumentsData.mk true true true.

Section Numeric.

Context {num : Type} `{JSNumber num}.

Definition brakesClear : BrakesData.t num :=
  BrakesData.mk (lit 75) false false true.

Definition tiresClear : TiresData.t num :=
  TiresData.mk (lit 80) false false false.

Definition bodyClear : BodyData.t num :=
  BodyData.mk (lit 0) (lit 0) (lit 0) (lit 0) false false "excellent".

(** Every category clear. *)
Definition perfect (make model : string) (year : Q)
    : InspectionData num :=
  mkInspectionData (Some make) (Some model) (lit year)
    engineClear frameClear suspensionClear brakesClear tiresClear
    electricalsClear bodyClear documentsClear.

(** A major oil leak, everything else clear. *)
Definition majorLeak (make model : string) (year : Q)
    : InspectionData num :=
  mkInspectionData (Some make) (Some model) (lit year)
    engineMajorLeak frameClear suspensionClear brakesClear tiresClear
    electricalsClear bodyClear documentsClear.

End Numeric.

Definition jan2025 : Date := mkDate 2025 0 1.
Definition dec2025 : Date := mkDate 2025 11 31.

End Sample.

(** ** Facts about the exact instance *)

Local Open Scope Q_scope.

Lemma Qlt_bool_iff (x y : Q) : Qlt_bool x y = true <-> x < y.
Proof.
  unfold Qlt_bool. rewrite negb_true_iff. split; intro Hxy.
  - apply Qnot_le_lt. intro Hle. apply Qle_bool_iff in Hle. congruence.
  - destruct (Qle_bool y x) eqn:E; [ | reflexivity ].
    apply Qle_bool_iff in E. exfalso. exact (Qlt_not_le _ _ Hxy E).
Qed.

Lemma Qlt_bool_false_iff (x y : Q) : Qlt_bool x y = false <-> y <= x.
Proof.
  unfold Qlt_bool. rewrite negb_false_iff. apply Qle_bool_iff.
Qed.

(** The final [Math.max(0, score)] of every scorer. *)
Lemma clamp_range (s : Q) : s <= 10 -> 0 <= Math_max (lit 0) s <= 10.
Proof.
  intro Hs. cbn. split.
  - apply Q.le_max_l.
  - apply Q.max_lub; [ lra | exact Hs ].
Qed.


#[global] Instance Qround_half_up_compat :
  Proper (Qeq ==> Qeq) Qround_half_up.
Proof.
  intros x y Hxy. unfold Qround_half_up. rewrite Hxy. reflexivity.
Qed.

Lemma Qround_half_up_Z (z : Z) : Qround_half_up (inject_Z z) == inject_Z z.
Proof.
  unfold Qround_half_up.
  assert (Hf : Qfloor (inject_Z z + (1 # 2)) = z).
  { assert (Hlo := Qfloor_le (inject_Z z + (1 # 2))).
    assert (Hhi := Qlt_floor (inject_Z z + (1 # 2))).
    assert (H1 : (z <= Qfloor (inject_Z z + (1 # 2)))%Z).
    { apply Z.le_trans with (Qfloor (inject_Z z)).
      - rewrite Qfloor_Z. lia.
      - apply Qfloor_resp_le. lra. }
    assert (H2 : (Qfloor (inject_Z z + (1 # 2)) < z + 1)%Z).
    { rewrite Zlt_Qlt. rewrite inject_Z_plus.
      change (inject_Z 1) with 1. lra. }
    lia. }
  rewrite Hf. reflexivity.
Qed.

Lemma Qround_half_up_le (x y : Q) :
  x <= y -> Qround_half_up x <= Qround_half_up y.
Proof.
  intro Hxy. unfold Qround_half_up. rewrite <- Zle_Qle.
  apply Qfloor_resp_le. lra.
Qed.

(** Case analysis on every test of a scorer. *)
Ltac split_tests :=
  repeat match goal with
         | |- context [if ?b then _ else _] => destruct b
         end.

(** ** Category scores lie between 0 and 10 *)

Definition inRange (s : Q) : Prop := 0 <= s <= 10.

Lemma engine_in_range (e : EngineData.t) : inRange (calculateEngineScore e).
Proof.
  unfold calculateEngineScore. apply clamp_range. cbn. split_tests; lra.
Qed.

Lemma frame_in_range (f : FrameData.t) : inRange (calculateFrameScore f).
Proof.
  unfold calculateFrameScore. apply clamp_range. cbn. split_tests; lra.
Qed.

Lemma suspension_in_range (s : SuspensionData.t) :
  inRange (calculateSuspensionScore s).
Proof.
  unfold calculateSuspensionScore. apply clamp_range. cbn.
  split_tests; lra.
Qed.

Lemma brakes_in_range (b : BrakesData.t Q) :
  inRange (calculateBrakesScore b).
Proof.
  unfold calculateBrakesScore. apply clamp_range. cbn. split_tests; lra.
Qed.

Lemma tires_in_range (t : TiresData.t Q) : inRange (calculateTiresScore t).
Proof.
  unfold calculateTiresScore. apply clamp_range. cbn. split_tests; lra.
Qed.

Lemma electricals_in_range (e : ElectricalsData.t) :
  inRange (calculateElectricalsScore e).
Proof.
  unfold calculateElectricalsScore. apply clamp_range. cbn.
  split_tests; lra.
Qed.

Lemma documents_in_range (d : DocumentsData.t) :
  inRange (calculateDocumentsScore d).
Proof.
  unfold calculateDocumentsScore. apply clamp_range. cbn.
  split_tests; lra.
Qed.

(** The counts of a body observation are not negative. *)
Definition countsNonNegative (b : BodyData.t Q) : Prop :=
  0 <= BodyData.minorScratches b /\ 0 <= BodyData.bigScratches b /\
  0 <= BodyData.smallDents b /\ 0 <= BodyData.bigDents b.


Lemma body_in_range (b : BodyData.t Q) :
  countsNonNegative b -> inRange (calculateBodyScore b).
Proof.
  intros (Hm & Hb & Hs & Hd).
  unfold calculateBodyScore. apply clamp_range.
  unfold orElse, fairingConditionPenalties. cbn.
  split_tests; cbn; lra.
Qed.















(** ** The final score *)

Section FinalScoreFormula.

Context {num : Type} `{JSNumber num}.

Local Open Scope js_scope.



(** The eight category scores of a payload, in the table's order. *)
Definition categoryScores (d : InspectionData num) : list num :=
  [ calculateEngineScore (engineData d);
    calculateFrameScore (frameData d);
    calculateSuspensionScore (suspensionData d);
    calculateBrakesScore (brakesData d);
    calculateTiresScore (tiresData d);
    calculateElectricalsScore (electricalsData d);
    calculateBodyScore (bodyData d);
    calculateDocumentsScore (documentsData d) ].



End FinalScoreFormula.






(** ** Tiered deductions of the brakes and tires scorers *)

(** A brakes observation with another pad percentage. *)
Definition setPad {num : Type} (p : num) (b : BrakesData.t num)
    : BrakesData.t num :=
  BrakesData.mk p (BrakesData.discWarp b) (BrakesData.fluidLeak b)
                (BrakesData.absStatus b).

(** A tires observation with another tread percentage. *)
Definition setTread {num : Type} (p : num) (t : TiresData.t num)
    : TiresData.t num :=
  TiresData.mk p (TiresData.cracks t) (TiresData.mismatchedPair t)
               (TiresData.ageOver5Years t).

Lemma tier_test (p c : Q) : Qlt_bool (p / 100) c = true <-> p < c * 100.
Proof.
  rewrite Qlt_bool_iff. unfold Qdiv. change (/ 100) with (1 # 100).
  split; intro; lra.
Qed.

Lemma tier_test_false (p c : Q) :
  Qlt_bool (p / 100) c = false <-> c * 100 <= p.
Proof.
  rewrite Qlt_bool_false_iff. unfold Qdiv. change (/ 100) with (1 # 100).
  split; intro; lra.
Qed.




(** *** Whole percentages in double precision *)

(** A whole percentage as a number. *)
Definition percent {num : Type} `{JSNumber num} (n : nat) : num :=
  lit (inject_Z (Z.of_nat n)).









(** The scores at the four tier floors and at 29 and 69 percent, every
    other finding clear. *)
Lemma tier_readings_binary64 :
  let brakesAt (n : nat) :=
    calculateBrakesScore (num := float)
                         (setPad (percent n) Sample.brakesClear) in
  let tiresAt (n : nat) :=
    calculateTiresScore (num := float)
                        (setTread (percent n) Sample.tiresClear) in
  (brakesAt 0%nat = lit 8 /\ tiresAt 0%nat = lit 7.5) /\
  (brakesAt 29%nat = lit 8 /\ tiresAt 29%nat = lit 7.5) /\
  (brakesAt 30%nat = lit 9 /\ tiresAt 30%nat = lit 8.5) /\
  (brakesAt 50%nat = lit 9.5 /\ tiresAt 50%nat = lit 9.3) /\
  (brakesAt 69%nat = lit 9.5 /\ tiresAt 69%nat = lit 9.3) /\
  (brakesAt 70%nat = lit 10 /\ tiresAt 70%nat = lit 10).
Proof. vm_compute. repeat split. Qed.



(** ** The market valuation, step by step *)

Section ValuationSteps.

Context {num : Type} `{JSNumber num}.

Local Open Scope js_scope.

(** line 394: [marketBaseline] after depreciation *)
Definition adjustedBaseline (now : Date) (make model : option string)
    (year : num) : num :=
  lookupBaseline make model * (lit 1 - depreciationRate now year).

(** line 397 *)
Definition conditionMultiplier (finalScore : num) : num :=
  finalScore / lit 10.

Lemma calculateMarketValuation_steps (now : Date)
    (make model : option string) (year finalScore : num) :
  calculateMarketValuation now make model year finalScore
  = {| marketBaseline := Math_round (adjustedBaseline now make model year);
       estimatedValue :=
         Math_round (adjustedBaseline now make model year
                     * conditionMultiplier finalScore) |}.
Proof. reflexivity. Qed.

End ValuationSteps.

(** ** The baseline lookup *)

Lemma get_In {V : Type} (o : JS.object V) (k : string) (v : V) :
  JS.get o k = Some v -> In (k, v) o.
Proof.
  induction o as [ | [k' v'] o IH ]; cbn; [ discriminate | ].
  destruct (String.eqb k k') eqn:E.
  - intro Hv. injection Hv as ->. apply String.eqb_eq in E. subst k'.
    left. reflexivity.
  - intro Hv. right. apply IH. exact Hv.
Qed.

(** The pricing table has an entry for the brand key and the model key. *)
Definition inPricingTable (brand model : string) : Prop :=
  exists (models : JS.object Q) (price : Q),
    In (brand, models) baselines /\ In (model, price) models.

Lemma tableEntry_In (brand model : string) (price : Q) :
  tableEntry brand model = Some price -> inPricingTable brand model.
Proof.
  unfold tableEntry, inPricingTable. intro Hentry.
  destruct (JS.get baselines brand) as [ models | ] eqn:Hbrand;
    [ | discriminate ].
  exists models, price. split; apply get_In; assumption.
Qed.

(** The entries of the table, flattened. *)
Definition priceList : list (string * string * Q) :=
  flat_map (fun bm => map (fun mp => (fst bm, fst mp, snd mp)) (snd bm))
           baselines.

Lemma priceList_complete (brand model : string) (models : JS.object Q)
    (price : Q) :
  In (brand, models) baselines -> In (model, price) models ->
  In (brand, model, price) priceList.
Proof.
  intros Hb Hm. unfold priceList. apply in_flat_map.
  exists (brand, models). split; [ exact Hb | ].
  apply in_map_iff. exists (model, price). split; [ reflexivity | exact Hm ].
Qed.

(** Every entry is checked one by one. *)
Ltac each_price :=
  unfold priceList; cbn [flat_map map app fst snd baselines];
  repeat (apply Forall_cons; [ split; vm_compute; reflexivity | ]);
  apply Forall_nil.

(** Every entry is found under its own keys, and no price is zero. *)
Lemma priceList_found :
  Forall (fun e => tableEntry (fst (fst e)) (snd (fst e)) = Some (snd e)
                   /\ Qeq_bool (snd e) 0 = false)
         priceList.
Proof. each_price. Qed.

(** Every price is a positive whole number. *)
Lemma priceList_positive :
  Forall (fun e => 0 < snd e /\ inject_Z (Qfloor (snd e)) == snd e)
         priceList.
Proof. each_price. Qed.

Lemma tableEntry_found (brand model : string) (models : JS.object Q)
    (price : Q) :
  In (brand, models) baselines -> In (model, price) models ->
  tableEntry brand model = Some price /\ Qeq_bool price 0 = false.
Proof.
  intros Hb Hm.
  assert (Hin := @priceList_complete _ _ _ _ Hb Hm).
  exact (proj1 (Forall_forall _ _) priceList_found _ Hin).
Qed.


Section BaselineLookup.

Context {num : Type} `{JSNumber num}.




End BaselineLookup.



(** ** Depreciation and condition adjustment in the exact model *)

Lemma lookupBaseline_positive (make model : option string) :
  0 < lookupBaseline (num := Q) make model.
Proof.
  unfold lookupBaseline, baselineEntry.
  destruct (tableEntry _ _) as [ price | ] eqn:E; cbn; [ | reflexivity ].
  destruct (Qeq_bool price 0); [ reflexivity | ].
  destruct (@tableEntry_In _ _ _ E) as (models & price' & Hb & Hm).
  destruct (@tableEntry_found _ _ _ _ Hb Hm) as [Hsome _].
  assert (Hp : price' = price) by congruence. subst price'.
  assert (Hin := @priceList_complete _ _ _ _ Hb Hm).
  exact (proj1 (proj1 (Forall_forall _ _) priceList_positive _ Hin)).
Qed.

Lemma depreciationRate_exact (now : Date) (year : Q) :
  depreciationRate now year
  == Qmin ((inject_Z (getFullYear now) - year) * 0.08) 0.5.
Proof. reflexivity. Qed.



(** C4, as the code has it: the age is the current year minus the
    vehicle year and is not clamped; for every vehicle year after the
    current year the depreciation rate is that negative age times 0.08,
    below zero, the depreciation step raises the baseline above the
    looked-up price, and the returned market baseline is not below the
    rounded looked-up price. *)
Theorem future_year_raises_baseline (now : Date)
    (make model : option string) (year finalScore : Q) :
  inject_Z (getFullYear now) < year ->
  depreciationRate now year == (inject_Z (getFullYear now) - year) * 0.08
  /\ depreciationRate now year < 0
  /\ lookupBaseline make model < adjustedBaseline now make model year
  /\ Math_round (lookupBaseline make model)
     <= marketBaseline
          (calculateMarketValuation now make model year finalScore).
Proof.
  intro Hfuture.
  assert (Hrate : depreciationRate now year
                  == (inject_Z (getFullYear now) - year) * 0.08).
  { rewrite depreciationRate_exact. apply Q.min_l. lra. }
  assert (Hneg : depreciationRate now year < 0) by (rewrite Hrate; lra).
  assert (Hb := lookupBaseline_positive make model).
  assert (Hup : lookupBaseline make model
                < adjustedBaseline now make model year).
  { unfold adjustedBaseline. cbn [mul sub lit Exact].
    set (b := lookupBaseline make model) in *.
    set (r := depreciationRate now year) in *.
    assert (Hbr : 0 < b * (- r)) by (apply Qmult_lt_0_compat; lra).
    lra. }
  repeat split; try assumption.
  rewrite calculateMarketValuation_steps. cbn [marketBaseline].
  apply Qround_half_up_le. lra.
Qed.

Lemma future_year_raises_baseline_witness :
  depreciationRate (num := Q) Sample.jan2025 2026 < 0
  /\ lookupBaseline (num := Q) (Some "Honda"%string) (Some "Pridor"%string)
     < adjustedBaseline Sample.jan2025 (Some "Honda"%string)
                        (Some "Pridor"%string) 2026.
Proof.
  assert (Hfuture : inject_Z (getFullYear Sample.jan2025) < 2026)
    by reflexivity.
  destruct (future_year_raises_baseline Sample.jan2025
              (Some "Honda"%string) (Some "Pridor"%string) 10 Hfuture)
    as (_ & Hneg & Hup & _).
  split; [ exact Hneg | exact Hup ].
Defined.

(** C4, counterexample: in 2025 a Honda Pridor of model year 2026 has
    depreciation rate -0.08 and is returned with market baseline 228852,
    while its looked-up baseline, returned for model year 2025, is
    211900; in double precision and in the exact model alike. *)
Lemma future_year_counterexample :
  (depreciationRate (num := float) Sample.jan2025 (lit 2026) = lit (-0.08)
   /\ marketBaseline
        (calculateMarketValuation (num := float) Sample.jan2025
           (Some "Honda"%string) (Some "Pridor"%string) (lit 2026) (lit 10))
      = lit 228852
   /\ marketBaseline
        (calculateMarketValuation (num := float) Sample.jan2025
           (Some "Honda"%string) (Some "Pridor"%string) (lit 2025) (lit 10))
      = lit 211900)
  /\ (depreciationRate (num := Q) Sample.jan2025 2026 == -0.08
      /\ marketBaseline
           (calculateMarketValuation (num := Q) Sample.jan2025
              (Some "Honda"%string) (Some "Pridor"%string) 2026 10)
         == 228852
      /\ marketBaseline
           (calculateMarketValuation (num := Q) Sample.jan2025
              (Some "Honda"%string) (Some "Pridor"%string) 2025 10)
         == 211900).
Proof. vm_compute. repeat split. Qed.




(** ** Doubling the final score *)




(** ** The end-to-end example *)

(** C6, evaluated: with a major oil leak and everything else clear the
    engine score is 8.5 and the final score 9.4, in double precision and
    in the exact model; for make "Honda", model "CD 70" and the current
    year the lower-cased model "cd 70" is not the table key "cd-70", so
    the valuation is the fallback 200000 with estimate 188000; the
    values 159900 and 150306 are returned for the model "cd-70". *)
Theorem end_to_end_example :
  (let r := evaluateInspection (num := float) Sample.jan2025
              (Sample.majorLeak "Honda" "CD 70" 2025) in
   engineScore (fst r) = lit 8.5 /\ finalScore (fst r) = lit 9.4
   /\ snd r = {| marketBaseline := lit 200000;
                 estimatedValue := lit 188000 |})
  /\ (let r := evaluateInspection (num := float) Sample.jan2025
                 (Sample.majorLeak "Honda" "cd-70" 2025) in
      engineScore (fst r) = lit 8.5 /\ finalScore (fst r) = lit 9.4
      /\ snd r = {| marketBaseline := lit 159900;
                    estimatedValue := lit 150306 |})
  /\ (let r := evaluateInspection (num := Q) Sample.jan2025
                 (Sample.majorLeak "Honda" "CD 70" 2025) in
      engineScore (fst r) == 8.5 /\ finalScore (fst r) == 9.4
      /\ marketBaseline (snd r) == 200000
      /\ estimatedValue (snd r) == 188000)
  /\ (let r := evaluateInspection (num := Q) Sample.jan2025
                 (Sample.majorLeak "Honda" "cd-70" 2025) in
      engineScore (fst r) == 8.5 /\ finalScore (fst r) == 9.4
      /\ marketBaseline (snd r) == 159900
      /\ estimatedValue (snd r) == 150306).
Proof. vm_compute. repeat split. Qed.

(** ** Dependence on the clock *)




(** ** Unrecognized enum values *)

Section UnrecognizedEnums.

Context {num : Type} `{JSNumber num}.

Local Open Scope string_scope.





End UnrecognizedEnums.



(** * Further properties of the engine, the seed data and the pages

    The remaining part covers the floors and the grid of the scores,
    monotonicity of scoring and valuation, the seeded catalogue and
    scoring rules, the request schema, and the client pages that read
    the stored scores.

    Further modelling conventions.
    - The pages are modelled at the types they declare: a score is a
      [number], compared with [>=] ([JSCompare]).
    - A time stamp is the whole number of milliseconds [getTime()]
      returns; its arithmetic is exact.
    - A category object of the payload is also given by name
      ([Payload]), to relate it to the seeded rules, which are keyed by
      property name. *)

Unset Implicit Arguments.

(** * Further properties of the engine *)

(** ** Worst scores of the scorers with fixed deductions *)

Lemma clamp_above (lo s : Q) :
  0 <= lo -> lo <= s -> lo <= Math_max (lit 0) s.
Proof.
  intros H0 Hs. cbn.
  apply Qle_trans with s; [ exact Hs | apply Q.le_max_r ].
Qed.

(** Case analysis on an enum string tested against two constants: it is
    the first, or it is not and the second test goes either way. *)
Ltac split_enum x c1 c2 :=
  destruct (String.eqb_spec x c1) as [-> | ?];
  [ | destruct (String.eqb x c2) ].

(** The worst observation of each category. *)
Definition engineWorst : EngineData.t :=
  EngineData.mk "major" "heavy" true true true.

Definition frameWorst : FrameData.t := FrameData.mk true true true true.

Definition suspensionWorst : SuspensionData.t :=
  SuspensionData.mk true true true.

Definition brakesWorst {num : Type} `{JSNumber num} : BrakesData.t num :=
  BrakesData.mk (lit 0) true true false.

Definition tiresWorst {num : Type} `{JSNumber num} : TiresData.t num :=
  TiresData.mk (lit 0) true true true.

Definition electricalsWorst : ElectricalsData.t :=
  ElectricalsData.mk false false false false "poor".

Definition documentsWorst : DocumentsData.t :=
  DocumentsData.mk false false false.

Lemma engine_floor (e : EngineData.t) : 3.3 <= calculateEngineScore e.
Proof.
  destruct e as [oil smoke a h o]. unfold calculateEngineScore.
  apply clamp_above; [ lra | ]. cbn.
  split_enum oil "minor"%string "major"%string;
    split_enum smoke "light"%string "heavy"%string; cbn;
    destruct a, h, o; lra.
Qed.

Lemma frame_floor (f : FrameData.t) : 2.5 <= calculateFrameScore f.
Proof.
  unfold calculateFrameScore. apply clamp_above; [ lra | ]. cbn.
  split_tests; lra.
Qed.

Lemma suspension_floor (s : SuspensionData.t) :
  5.5 <= calculateSuspensionScore s.
Proof.
  unfold calculateSuspensionScore. apply clamp_above; [ lra | ]. cbn.
  split_tests; lra.
Qed.

Lemma brakes_floor (b : BrakesData.t Q) : 5 <= calculateBrakesScore b.
Proof.
  unfold calculateBrakesScore. apply clamp_above; [ lra | ]. cbn.
  split_tests; lra.
Qed.

Lemma tires_floor (t : TiresData.t Q) : 4.5 <= calculateTiresScore t.
Proof.
  unfold calculateTiresScore. apply clamp_above; [ lra | ]. cbn.
  split_tests; lra.
Qed.

Lemma electricals_floor (e : ElectricalsData.t) :
  2.5 <= calculateElectricalsScore e.
Proof.
  destruct e as [l i h s bat]. unfold calculateElectricalsScore.
  apply clamp_above; [ lra | ]. cbn.
  split_enum bat "fair"%string "poor"%string; cbn;
    destruct l, i, h, s; cbn; lra.
Qed.

Ltac floor64 := vm_compute; reflexivity.

Lemma engine_floor_binary64 (e : EngineData.t) :
  PrimFloat.leb (lit 3.3) (calculateEngineScore e) = true.
Proof.
  destruct e as [oil smoke a h o]. unfold calculateEngineScore.
  cbn [EngineData.oilLeaks EngineData.smoke EngineData.abnormalNoise
       EngineData.hardStart EngineData.overheating].
  split_enum oil "minor"%string "major"%string;
    split_enum smoke "light"%string "heavy"%string;
    destruct a, h, o; floor64.
Qed.

Lemma frame_floor_binary64 (f : FrameData.t) :
  PrimFloat.leb (lit 2.5) (calculateFrameScore f) = true.
Proof. unfold calculateFrameScore. split_tests; floor64. Qed.

Lemma suspension_floor_binary64 (s : SuspensionData.t) :
  PrimFloat.leb (lit 5.5) (calculateSuspensionScore s) = true.
Proof. unfold calculateSuspensionScore. split_tests; floor64. Qed.

Lemma brakes_floor_binary64 (b : BrakesData.t float) :
  PrimFloat.leb (lit 5) (calculateBrakesScore b) = true.
Proof. unfold calculateBrakesScore. split_tests; floor64. Qed.

Lemma tires_floor_binary64 (t : TiresData.t float) :
  PrimFloat.leb (lit 4.5) (calculateTiresScore t) = true.
Proof. unfold calculateTiresScore. split_tests; floor64. Qed.

Lemma electricals_floor_binary64 (e : ElectricalsData.t) :
  PrimFloat.leb (lit 2.5) (calculateElectricalsScore e) = true.
Proof.
  destruct e as [l i h s bat]. unfold calculateElectricalsScore.
  cbn [ElectricalsData.lights ElectricalsData.indicators
       ElectricalsData.horn ElectricalsData.starter
       ElectricalsData.batteryCondition].
  split_enum bat "fair"%string "poor"%string;
    destruct l, i, h, s; floor64.
Qed.

(** X1: the scorers with fixed deductions never reach the clamp at 0
    except the documents scorer at its worst: whatever is observed, the
    engine score is at least 3.3, the frame score 2.5, the suspension
    score 5.5, the brakes score 5, the tires score 4.5 and the
    electricals score 2.5, in the exact model and in double precision;
    each bound is the score of the worst observation, and the documents
    score of the worst observation is 0. *)
Theorem fixed_scorers_worst_scores :
  (forall d : InspectionData Q,
      3.3 <= calculateEngineScore (engineData d) /\
      2.5 <= calculateFrameScore (frameData d) /\
      5.5 <= calculateSuspensionScore (suspensionData d) /\
      5 <= calculateBrakesScore (brakesData d) /\
      4.5 <= calculateTiresScore (tiresData d) /\
      2.5 <= calculateElectricalsScore (electricalsData d))
  /\ (forall d : InspectionData float,
         PrimFloat.leb (lit 3.3) (calculateEngineScore (engineData d))
         = true /\
         PrimFloat.leb (lit 2.5) (calculateFrameScore (frameData d))
         = true /\
         PrimFloat.leb (lit 5.5)
                       (calculateSuspensionScore (suspensionData d))
         = true /\
         PrimFloat.leb (lit 5) (calculateBrakesScore (brakesData d))
         = true /\
         PrimFloat.leb (lit 4.5) (calculateTiresScore (tiresData d))
         = true /\
         PrimFloat.leb (lit 2.5)
                       (calculateElectricalsScore (electricalsData d))
         = true)
  /\ (calculateEngineScore (num := Q) engineWorst == 3.3 /\
      calculateFrameScore (num := Q) frameWorst == 2.5 /\
      calculateSuspensionScore (num := Q) suspensionWorst == 5.5 /\
      calculateBrakesScore (num := Q) brakesWorst == 5 /\
      calculateTiresScore (num := Q) tiresWorst == 4.5 /\
      calculateElectricalsScore (num := Q) electricalsWorst == 2.5 /\
      calculateDocumentsScore (num := Q) documentsWorst == 0).
Proof.
  split; [ | split ].
  - intro d.
    exact (conj (engine_floor _)
          (conj (frame_floor _)
          (conj (suspension_floor _)
          (conj (brakes_floor _)
          (conj (tires_floor _) (electricals_floor _)))))).
  - intro d.
    exact (conj (engine_floor_binary64 _)
          (conj (frame_floor_binary64 _)
          (conj (suspension_floor_binary64 _)
          (conj (brakes_floor_binary64 _)
          (conj (tires_floor_binary64 _)
                (electricals_floor_binary64 _)))))).
  - vm_compute. repeat split.
Qed.

(** ** The returned scores *)

Lemma body_not_negative (b : BodyData.t Q) : 0 <= calculateBodyScore b.
Proof. unfold calculateBodyScore. cbn. apply Q.le_max_l. Qed.

(** Replace the eight scorer calls of a goal by variables. *)
Ltac name_scores :=
  set (e := calculateEngineScore _) in *;
  set (f := calculateFrameScore _) in *;
  set (s := calculateSuspensionScore _) in *;
  set (b := calculateBrakesScore _) in *;
  set (t := calculateTiresScore _) in *;
  set (el := calculateElectricalsScore _) in *;
  set (bo := calculateBodyScore _) in *;
  set (dc := calculateDocumentsScore _) in *;
  clearbody e f s b t el bo dc.

(** The final score computed from eight category scores (lines 210-219
    and 230). *)
Definition finalOf (e f s b t el bo dc : Q) : Q :=
  Qround_half_up
    ((e * 40 + f * 15 + s * 10 + b * 10 + t * 10 + el * 5 + bo * 8
      + dc * 2) / 100 * 10) / 10.

Lemma finalScore_finalOf (d : InspectionData Q) :
  finalScore (calculateInspectionScores d)
  = finalOf (calculateEngineScore (engineData d))
            (calculateFrameScore (frameData d))
            (calculateSuspensionScore (suspensionData d))
            (calculateBrakesScore (brakesData d))
            (calculateTiresScore (tiresData d))
            (calculateElectricalsScore (electricalsData d))
            (calculateBodyScore (bodyData d))
            (calculateDocumentsScore (documentsData d)).
Proof.
  unfold calculateInspectionScores. cbn [finalScore].
  name_scores. reflexivity.
Qed.

(** Rounding to one decimal keeps a value between two bounds that are
    themselves whole tenths. *)
Lemma round_tenths_between (lo hi : Z) (x : Q) :
  inject_Z lo / 10 <= x <= inject_Z hi / 10 ->
  inject_Z lo / 10 <= Qround_half_up (x * 10) / 10 <= inject_Z hi / 10.
Proof.
  intros [Hlo Hhi].
  assert (Hl : inject_Z lo <= Qround_half_up (x * 10)).
  { rewrite <- (Qround_half_up_Z lo). apply Qround_half_up_le.
    unfold Qdiv in Hlo. change (/ 10) with (1 # 10) in Hlo. lra. }
  assert (Hh : Qround_half_up (x * 10) <= inject_Z hi).
  { rewrite <- (Qround_half_up_Z hi). apply Qround_half_up_le.
    unfold Qdiv in Hhi. change (/ 10) with (1 # 10) in Hhi. lra. }
  unfold Qdiv. change (/ 10) with (1 # 10). split; lra.
Qed.

Lemma finalOf_floor (e f s b t el bo dc : Q) :
  3.3 <= e -> 2.5 <= f -> 5.5 <= s -> 5 <= b -> 4.5 <= t -> 2.5 <= el ->
  0 <= bo -> 0 <= dc ->
  3.3 <= finalOf e f s b t el bo dc.
Proof.
  intros. unfold finalOf.
  set (x := (e * 40 + f * 15 + s * 10 + b * 10 + t * 10 + el * 5 + bo * 8
             + dc * 2) / 100).
  assert (Hx : 3.32 <= x).
  { unfold x, Qdiv. change (/ 100) with (1 # 100). lra. }
  assert (Hr : inject_Z 33 <= Qround_half_up (x * 10)).
  { rewrite <- (Qround_half_up_Z 33). apply Qround_half_up_le.
    change (inject_Z 33) with 33. lra. }
  change (inject_Z 33) with 33 in Hr.
  unfold Qdiv. change (/ 10) with (1 # 10). lra.
Qed.

Lemma finalOf_ceiling (e f s b t el bo dc : Q) :
  0 <= e <= 10 -> 0 <= f <= 10 -> 0 <= s <= 10 -> 0 <= b <= 10 ->
  0 <= t <= 10 -> 0 <= el <= 10 -> 0 <= bo <= 10 -> 0 <= dc <= 10 ->
  0 <= finalOf e f s b t el bo dc <= 10.
Proof.
  intros. unfold finalOf.
  set (x := (e * 40 + f * 15 + s * 10 + b * 10 + t * 10 + el * 5 + bo * 8
             + dc * 2) / 100).
  assert (Hx : inject_Z 0 / 10 <= x <= inject_Z 100 / 10).
  { unfold x, Qdiv. change (/ 100) with (1 # 100).
    change (/ 10) with (1 # 10).
    change (inject_Z 0) with 0. change (inject_Z 100) with 100.
    split; lra. }
  apply (round_tenths_between 0 100) in Hx.
  unfold Qdiv in Hx. change (/ 10) with (1 # 10) in Hx.
  change (inject_Z 0) with 0 in Hx. change (inject_Z 100) with 100 in Hx.
  unfold Qdiv. change (/ 10) with (1 # 10). lra.
Qed.

Lemma finalScore_floor (d : InspectionData Q) :
  3.3 <= finalScore (calculateInspectionScores d).
Proof.
  rewrite finalScore_finalOf. apply finalOf_floor.
  - apply engine_floor.
  - apply frame_floor.
  - apply suspension_floor.
  - apply brakes_floor.
  - apply tires_floor.
  - apply electricals_floor.
  - apply body_not_negative.
  - apply documents_in_range.
Qed.

Lemma finalScore_ceiling (d : InspectionData Q) :
  countsNonNegative (bodyData d) ->
  finalScore (calculateInspectionScores d) <= 10.
Proof.
  intro Hc. rewrite finalScore_finalOf. apply finalOf_ceiling.
  - apply engine_in_range.
  - apply frame_in_range.
  - apply suspension_in_range.
  - apply brakes_in_range.
  - apply tires_in_range.
  - apply electricals_in_range.
  - apply (body_in_range Hc).
  - apply documents_in_range.
Qed.


(** [Math.round(x * 10) / 10], the rounding applied to each returned
    score (lines 222-230). *)
Definition tenths (x : Q) : Q := Qround_half_up (x * 10) / 10.

#[global] Instance tenths_compat : Proper (Qeq ==> Qeq) tenths.
Proof. intros x y Hxy. unfold tenths. rewrite Hxy. reflexivity. Qed.

Lemma calculateInspectionScores_exact (d : InspectionData Q) :
  calculateInspectionScores d
  = {| engineScore := tenths (calculateEngineScore (engineData d));
       frameScore := tenths (calculateFrameScore (frameData d));
       suspensionScore :=
         tenths (calculateSuspensionScore (suspensionData d));
       brakesScore := tenths (calculateBrakesScore (brakesData d));
       tiresScore := tenths (calculateTiresScore (tiresData d));
       electricalsScore :=
         tenths (calculateElectricalsScore (electricalsData d));
       bodyScore := tenths (calculateBodyScore (bodyData d));
       documentsScore :=
         tenths (calculateDocumentsScore (documentsData d));
       finalScore :=
         finalOf (calculateEngineScore (engineData d))
                 (calculateFrameScore (frameData d))
                 (calculateSuspensionScore (suspensionData d))
                 (calculateBrakesScore (brakesData d))
                 (calculateTiresScore (tiresData d))
                 (calculateElectricalsScore (electricalsData d))
                 (calculateBodyScore (bodyData d))
                 (calculateDocumentsScore (documentsData d)) |}.
Proof.
  unfold calculateInspectionScores. name_scores. reflexivity.
Qed.

(** A whole number of tenths between 0 and 10. *)
Definition onTenthGrid (s : Q) : Prop :=
  exists k : Z, (0 <= k <= 100)%Z /\ s == inject_Z k / 10.

Lemma tenths_on_grid (x : Q) : 0 <= x <= 10 -> onTenthGrid (tenths x).
Proof.
  intros [Hlo Hhi]. unfold onTenthGrid, tenths, Qround_half_up.
  exists (Qfloor (x * 10 + (1 # 2))). split; [ | reflexivity ].
  split.
  - apply Z.le_trans with (Qfloor (inject_Z 0)).
    + rewrite Qfloor_Z. lia.
    + apply Qfloor_resp_le. change (inject_Z 0) with 0. lra.
  - apply Z.le_trans with (Qfloor (inject_Z 100 + (1 # 2))).
    + apply Qfloor_resp_le. change (inject_Z 100) with 100. lra.
    + vm_compute. discriminate.
Qed.

Lemma finalOf_on_grid (e f s b t el bo dc : Q) :
  0 <= e <= 10 -> 0 <= f <= 10 -> 0 <= s <= 10 -> 0 <= b <= 10 ->
  0 <= t <= 10 -> 0 <= el <= 10 -> 0 <= bo <= 10 -> 0 <= dc <= 10 ->
  onTenthGrid (finalOf e f s b t el bo dc).
Proof.
  intros. change (finalOf e f s b t el bo dc)
    with (tenths ((e * 40 + f * 15 + s * 10 + b * 10 + t * 10 + el * 5
                   + bo * 8 + dc * 2) / 100)).
  apply tenths_on_grid.
  unfold Qdiv. change (/ 100) with (1 # 100). split; lra.
Qed.

Lemma scores_on_grid (d : InspectionData Q) :
  countsNonNegative (bodyData d) ->
  let r := calculateInspectionScores d in
  onTenthGrid (engineScore r) /\ onTenthGrid (frameScore r) /\
  onTenthGrid (suspensionScore r) /\ onTenthGrid (brakesScore r) /\
  onTenthGrid (tiresScore r) /\ onTenthGrid (electricalsScore r) /\
  onTenthGrid (bodyScore r) /\ onTenthGrid (documentsScore r) /\
  onTenthGrid (finalScore r).
Proof.
  intros Hc r. subst r. rewrite calculateInspectionScores_exact.
  cbn [engineScore frameScore suspensionScore brakesScore tiresScore
       electricalsScore bodyScore documentsScore finalScore].
  assert (H1 := engine_in_range (engineData d)).
  assert (H2 := frame_in_range (frameData d)).
  assert (H3 := suspension_in_range (suspensionData d)).
  assert (H4 := brakes_in_range (brakesData d)).
  assert (H5 := tires_in_range (tiresData d)).
  assert (H6 := electricals_in_range (electricalsData d)).
  assert (H7 := body_in_range Hc).
  assert (H8 := documents_in_range (documentsData d)).
  unfold inRange in *.
  exact (conj (tenths_on_grid _ H1)
        (conj (tenths_on_grid _ H2)
        (conj (tenths_on_grid _ H3)
        (conj (tenths_on_grid _ H4)
        (conj (tenths_on_grid _ H5)
        (conj (tenths_on_grid _ H6)
        (conj (tenths_on_grid _ H7)
        (conj (tenths_on_grid _ H8)
              (finalOf_on_grid _ _ _ _ _ _ _ _
                               H1 H2 H3 H4 H5 H6 H7 H8))))))))).
Qed.



(** ** Rounding the category scores loses nothing *)












(** The four counts of a body observation are whole numbers. *)
Definition wholeCounts (b : BodyData.t Q) : Prop :=
  exists n1 n2 n3 n4 : Z,
    BodyData.minorScratches b == inject_Z n1 /\
    BodyData.bigScratches b == inject_Z n2 /\
    BodyData.smallDents b == inject_Z n3 /\
    BodyData.bigDents b == inject_Z n4.




Lemma finalOf_tenths (e f s b t el bo dc : Q) :
  finalOf e f s b t el bo dc
  = tenths ((e * 40 + f * 15 + s * 10 + b * 10 + t * 10 + el * 5 + bo * 8
             + dc * 2) / 100).
Proof. reflexivity. Qed.



(** Three minor scratches and one big dent: the body score 9.2 is
    returned as it is. *)
Definition lightlyScratched : InspectionData Q :=
  mkInspectionData (Some "Honda"%string) (Some "Pridor"%string) 2024
    Sample.engineMajorLeak Sample.frameClear Sample.suspensionClear
    Sample.brakesClear Sample.tiresClear Sample.electricalsClear
    (BodyData.mk 3 0 0 1 false false "excellent"%string)
    Sample.documentsClear.



(** ** A worse observation never scores higher *)

(** Severity ranks of the enum values; an unrecognized value ranks with
    the harmless one. *)
Definition oilLeaksRank (x : string) : nat :=
  if String.eqb x "major" then 2 else if String.eqb x "minor" then 1 else 0.

Definition smokeRank (x : string) : nat :=
  if String.eqb x "heavy" then 2 else if String.eqb x "light" then 1 else 0.

Definition batteryRank (x : string) : nat :=
  if String.eqb x "poor" then 2 else if String.eqb x "fair" then 1 else 0.

Definition fairingRank (x : string) : nat :=
  if String.eqb x "poor" then 3
  else if String.eqb x "fair" then 2
  else if String.eqb x "good" then 1
  else 0.

(** [noBetter x y]: the observation [y] shows every defect [x] shows, at
    least as severely. *)
Module NoBetter.

Definition engine (x y : EngineData.t) : Prop :=
  (oilLeaksRank (EngineData.oilLeaks x)
   <= oilLeaksRank (EngineData.oilLeaks y))%nat /\
  (smokeRank (EngineData.smoke x) <= smokeRank (EngineData.smoke y))%nat /\
  Bool.le (EngineData.abnormalNoise x) (EngineData.abnormalNoise y) /\
  Bool.le (EngineData.hardStart x) (EngineData.hardStart y) /\
  Bool.le (EngineData.overheating x) (EngineData.overheating y).

Definition frame (x y : FrameData.t) : Prop :=
  Bool.le (FrameData.cracks x) (FrameData.cracks y) /\
  Bool.le (FrameData.rust x) (FrameData.rust y) /\
  Bool.le (FrameData.bends x) (FrameData.bends y) /\
  Bool.le (FrameData.repaintMarks x) (FrameData.repaintMarks y).

Definition suspension (x y : SuspensionData.t) : Prop :=
  Bool.le (SuspensionData.leakage x) (SuspensionData.leakage y) /\
  Bool.le (SuspensionData.stiffness x) (SuspensionData.stiffness y) /\
  Bool.le (SuspensionData.abnormalSound x)
          (SuspensionData.abnormalSound y).

Definition brakes (x y : BrakesData.t Q) : Prop :=
  BrakesData.padRemaining y <= BrakesData.padRemaining x /\
  Bool.le (BrakesData.discWarp x) (BrakesData.discWarp y) /\
  Bool.le (BrakesData.fluidLeak x) (BrakesData.fluidLeak y) /\
  Bool.le (BrakesData.absStatus y) (BrakesData.absStatus x).

Definition tires (x y : TiresData.t Q) : Prop :=
  TiresData.treadRemaining y <= TiresData.treadRemaining x /\
  Bool.le (TiresData.cracks x) (TiresData.cracks y) /\
  Bool.le (TiresData.mismatchedPair x) (TiresData.mismatchedPair y) /\
  Bool.le (TiresData.ageOver5Years x) (TiresData.ageOver5Years y).

Definition electricals (x y : ElectricalsData.t) : Prop :=
  Bool.le (ElectricalsData.lights y) (ElectricalsData.lights x) /\
  Bool.le (ElectricalsData.indicators y) (ElectricalsData.indicators x) /\
  Bool.le (ElectricalsData.horn y) (ElectricalsData.horn x) /\
  Bool.le (ElectricalsData.starter y) (ElectricalsData.starter x) /\
  (batteryRank (ElectricalsData.batteryCondition x)
   <= batteryRank (ElectricalsData.batteryCondition y))%nat.

Definition body (x y : BodyData.t Q) : Prop :=
  BodyData.minorScratches x <= BodyData.minorScratches y /\
  BodyData.bigScratches x <= BodyData.bigScratches y /\
  BodyData.smallDents x <= BodyData.smallDents y /\
  BodyData.bigDents x <= BodyData.bigDents y /\
  Bool.le (BodyData.cracks x) (BodyData.cracks y) /\
  Bool.le (BodyData.repaintPanels x) (BodyData.repaintPanels y) /\
  (fairingRank (BodyData.fairingCondition x)
   <= fairingRank (BodyData.fairingCondition y))%nat.

Definition documents (x y : DocumentsData.t) : Prop :=
  Bool.le (DocumentsData.registration y) (DocumentsData.registration x) /\
  Bool.le (DocumentsData.importPapers y) (DocumentsData.importPapers x) /\
  Bool.le (DocumentsData.serviceRecords y)
          (DocumentsData.serviceRecords x).

Definition inspection (x y : InspectionData Q) : Prop :=
  engine (engineData x) (engineData y) /\
  frame (frameData x) (frameData y) /\
  suspension (suspensionData x) (suspensionData y) /\
  brakes (brakesData x) (brakesData y) /\
  tires (tiresData x) (tiresData y) /\
  electricals (electricalsData x) (electricalsData y) /\
  body (bodyData x) (bodyData y) /\
  documents (documentsData x) (documentsData y).

End NoBetter.

(** An enum string against its recognized values, most severe first. *)
Ltac enum3 x c1 c2 :=
  destruct (String.eqb_spec x c1) as [-> | ?];
  [ | destruct (String.eqb_spec x c2) as [-> | ?] ].

(** A pair of flags related by [Bool.le] at the head of the goal: the
    three possible cases. *)
Ltac flag_pair a b :=
  let H := fresh "Hflag" in
  destruct a, b; cbn [Bool.le]; intro H;
  first [ discriminate H | clear H ].

(** A rank comparison at the head of the goal, its tests decided. *)
Ltac rank_head :=
  let H := fresh "Hrank" in
  intro H; cbn in H; first [ exfalso; lia | clear H ].

Ltac closed_le := vm_compute; discriminate.

Lemma engine_monotone (x y : EngineData.t) :
  NoBetter.engine x y -> calculateEngineScore y <= calculateEngineScore x.
Proof.
  destruct x as [xo xs xa xh xv], y as [yo ys ya yh yv].
  unfold NoBetter.engine, calculateEngineScore, oilLeaksRank, smokeRank.
  cbn [EngineData.oilLeaks EngineData.smoke EngineData.abnormalNoise
       EngineData.hardStart EngineData.overheating].
  intros (Ho & Hs & Ha & Hh & Hv). revert Ho Hs Ha Hh Hv.
  enum3 xo "major"%string "minor"%string;
    enum3 yo "major"%string "minor"%string; rank_head;
    enum3 xs "heavy"%string "light"%string;
    enum3 ys "heavy"%string "light"%string; rank_head;
    flag_pair xa ya; flag_pair xh yh; flag_pair xv yv; closed_le.
Qed.

Lemma frame_monotone (x y : FrameData.t) :
  NoBetter.frame x y -> calculateFrameScore y <= calculateFrameScore x.
Proof.
  destruct x as [x1 x2 x3 x4], y as [y1 y2 y3 y4].
  unfold NoBetter.frame, calculateFrameScore.
  cbn [FrameData.cracks FrameData.rust FrameData.bends
       FrameData.repaintMarks].
  intros (H1 & H2 & H3 & H4). revert H1 H2 H3 H4.
  flag_pair x1 y1; flag_pair x2 y2; flag_pair x3 y3; flag_pair x4 y4;
    closed_le.
Qed.

Lemma suspension_monotone (x y : SuspensionData.t) :
  NoBetter.suspension x y ->
  calculateSuspensionScore y <= calculateSuspensionScore x.
Proof.
  destruct x as [x1 x2 x3], y as [y1 y2 y3].
  unfold NoBetter.suspension, calculateSuspensionScore.
  cbn [SuspensionData.leakage SuspensionData.stiffness
       SuspensionData.abnormalSound].
  intros (H1 & H2 & H3). revert H1 H2 H3.
  flag_pair x1 y1; flag_pair x2 y2; flag_pair x3 y3; closed_le.
Qed.

Lemma electricals_monotone (x y : ElectricalsData.t) :
  NoBetter.electricals x y ->
  calculateElectricalsScore y <= calculateElectricalsScore x.
Proof.
  destruct x as [x1 x2 x3 x4 xb], y as [y1 y2 y3 y4 yb].
  unfold NoBetter.electricals, calculateElectricalsScore, batteryRank.
  cbn [ElectricalsData.lights ElectricalsData.indicators
       ElectricalsData.horn ElectricalsData.starter
       ElectricalsData.batteryCondition].
  intros (H1 & H2 & H3 & H4 & Hb). revert Hb H1 H2 H3 H4.
  enum3 xb "poor"%string "fair"%string;
    enum3 yb "poor"%string "fair"%string; rank_head;
    flag_pair y1 x1; flag_pair y2 x2; flag_pair y3 x3; flag_pair y4 x4;
    closed_le.
Qed.

Lemma documents_monotone (x y : DocumentsData.t) :
  NoBetter.documents x y ->
  calculateDocumentsScore y <= calculateDocumentsScore x.
Proof.
  destruct x as [x1 x2 x3], y as [y1 y2 y3].
  unfold NoBetter.documents, calculateDocumentsScore.
  cbn [DocumentsData.registration DocumentsData.importPapers
       DocumentsData.serviceRecords].
  intros (H1 & H2 & H3). revert H1 H2 H3.
  flag_pair y1 x1; flag_pair y2 x2; flag_pair y3 x3; closed_le.
Qed.

(** The three threshold tests on two percentages [q <= p], each outcome
    turned into an inequality. *)
Ltac tier_pair p q :=
  destruct (Qlt_bool (p / 100) 0.3) eqn:Ep30;
  destruct (Qlt_bool (p / 100) 0.5) eqn:Ep50;
  destruct (Qlt_bool (p / 100) 0.7) eqn:Ep70;
  rewrite ?tier_test, ?tier_test_false in *;
  try (exfalso; lra);
  destruct (Qlt_bool (q / 100) 0.3) eqn:Eq30;
  destruct (Qlt_bool (q / 100) 0.5) eqn:Eq50;
  destruct (Qlt_bool (q / 100) 0.7) eqn:Eq70;
  rewrite ?tier_test, ?tier_test_false in *;
  try (exfalso; lra).

Lemma brakes_monotone (x y : BrakesData.t Q) :
  NoBetter.brakes x y -> calculateBrakesScore y <= calculateBrakesScore x.
Proof.
  destruct x as [p x1 x2 x3], y as [q y1 y2 y3].
  unfold NoBetter.brakes, calculateBrakesScore.
  cbn [BrakesData.padRemaining BrakesData.discWarp BrakesData.fluidLeak
       BrakesData.absStatus].
  intros (Hp & H1 & H2 & H3). revert H1 H2 H3. cbn.
  tier_pair p q;
    flag_pair x1 y1; flag_pair x2 y2; flag_pair y3 x3; closed_le.
Qed.

Lemma tires_monotone (x y : TiresData.t Q) :
  NoBetter.tires x y -> calculateTiresScore y <= calculateTiresScore x.
Proof.
  destruct x as [p x1 x2 x3], y as [q y1 y2 y3].
  unfold NoBetter.tires, calculateTiresScore.
  cbn [TiresData.treadRemaining TiresData.cracks TiresData.mismatchedPair
       TiresData.ageOver5Years].
  intros (Hp & H1 & H2 & H3). revert H1 H2 H3. cbn.
  tier_pair p q;
    flag_pair x1 y1; flag_pair x2 y2; flag_pair x3 y3; closed_le.
Qed.

(** An enum string against four recognized values. *)
Ltac enum5 x c1 c2 c3 c4 :=
  destruct (String.eqb_spec x c1) as [-> | ?];
  [ | destruct (String.eqb_spec x c2) as [-> | ?];
      [ | destruct (String.eqb_spec x c3) as [-> | ?];
          [ | destruct (String.eqb_spec x c4) as [-> | ?] ] ] ].

Lemma body_monotone (x y : BodyData.t Q) :
  NoBetter.body x y -> calculateBodyScore y <= calculateBodyScore x.
Proof.
  destruct x as [a1 a2 a3 a4 x1 x2 xf], y as [b1 b2 b3 b4 y1 y2 yf].
  unfold NoBetter.body, calculateBodyScore, fairingRank, orElse,
    fairingConditionPenalties.
  cbn [BodyData.minorScratches BodyData.bigScratches BodyData.smallDents
       BodyData.bigDents BodyData.cracks BodyData.repaintPanels
       BodyData.fairingCondition].
  intros (H1 & H2 & H3 & H4 & Hc & Hr & Hf). revert Hf Hc Hr.
  cbn [JS.get].
  enum5 xf "poor"%string "fair"%string "good"%string "excellent"%string;
    enum5 yf "poor"%string "fair"%string "good"%string "excellent"%string;
    rank_head;
    flag_pair x1 y1; flag_pair x2 y2;
    cbn; apply Q.max_le_compat_l; lra.
Qed.

Lemma tenths_le (x y : Q) : x <= y -> tenths x <= tenths y.
Proof.
  intro Hxy. unfold tenths.
  assert (Hr : Qround_half_up (x * 10) <= Qround_half_up (y * 10))
    by (apply Qround_half_up_le; lra).
  unfold Qdiv. change (/ 10) with (1 # 10). lra.
Qed.

Lemma finalOf_le (e f s b t el bo dc e' f' s' b' t' el' bo' dc' : Q) :
  e <= e' -> f <= f' -> s <= s' -> b <= b' -> t <= t' -> el <= el' ->
  bo <= bo' -> dc <= dc' ->
  finalOf e f s b t el bo dc <= finalOf e' f' s' b' t' el' bo' dc'.
Proof.
  intros. rewrite !finalOf_tenths. apply tenths_le.
  unfold Qdiv. change (/ 100) with (1 # 100). lra.
Qed.

(** X5: an observation that shows every defect of another one at least
    as severely (no lower enum severity, no fewer flagged defects, no
    fewer scratches or dents, no more pad or tread remaining, no more
    working electricals or documents) never gets a higher score: each of
    the eight returned category scores and the returned final score is
    at most that of the other observation. *)
Theorem worse_observation_never_scores_higher (x y : InspectionData Q) :
  NoBetter.inspection x y ->
  let rx := calculateInspectionScores x in
  let ry := calculateInspectionScores y in
  engineScore ry <= engineScore rx /\
  frameScore ry <= frameScore rx /\
  suspensionScore ry <= suspensionScore rx /\
  brakesScore ry <= brakesScore rx /\
  tiresScore ry <= tiresScore rx /\
  electricalsScore ry <= electricalsScore rx /\
  bodyScore ry <= bodyScore rx /\
  documentsScore ry <= documentsScore rx /\
  finalScore ry <= finalScore rx.
Proof.
  intros (He & Hf & Hs & Hb & Ht & Hel & Hbo & Hdc) rx ry. subst rx ry.
  rewrite !calculateInspectionScores_exact.
  cbn [engineScore frameScore suspensionScore brakesScore tiresScore
       electricalsScore bodyScore documentsScore finalScore].
  apply engine_monotone in He. apply frame_monotone in Hf.
  apply suspension_monotone in Hs. apply brakes_monotone in Hb.
  apply tires_monotone in Ht. apply electricals_monotone in Hel.
  apply body_monotone in Hbo. apply documents_monotone in Hdc.
  exact (conj (tenths_le _ _ He)
        (conj (tenths_le _ _ Hf)
        (conj (tenths_le _ _ Hs)
        (conj (tenths_le _ _ Hb)
        (conj (tenths_le _ _ Ht)
        (conj (tenths_le _ _ Hel)
        (conj (tenths_le _ _ Hbo)
        (conj (tenths_le _ _ Hdc)
              (finalOf_le _ _ _ _ _ _ _ _ _ _ _ _ _ _ _ _
                          He Hf Hs Hb Ht Hel Hbo Hdc))))))))).
Qed.

Lemma worse_observation_never_scores_higher_witness :
  finalScore (calculateInspectionScores lightlyScratched)
  <= finalScore (calculateInspectionScores
                   (Sample.perfect (num := Q) "Honda" "Pridor" 2024)).
Proof.
  apply (worse_observation_never_scores_higher
           (Sample.perfect (num := Q) "Honda" "Pridor" 2024)
           lightlyScratched).
  unfold NoBetter.inspection, NoBetter.engine, NoBetter.frame,
    NoBetter.suspension, NoBetter.brakes, NoBetter.tires,
    NoBetter.electricals, NoBetter.body, NoBetter.documents.
  cbn. repeat split; try discriminate; try lia.
Defined.

(** ** The depreciation schedule *)

Lemma lookupBaseline_whole (make model : option string) :
  Math_round (lookupBaseline (num := Q) make model)
  == lookupBaseline make model.
Proof.
  unfold lookupBaseline, baselineEntry.
  destruct (tableEntry _ _) as [ price | ] eqn:E; cbn;
    [ | vm_compute; reflexivity ].
  destruct (Qeq_bool price 0); [ vm_compute; reflexivity | ].
  destruct (@tableEntry_In _ _ _ E) as (models & price' & Hb & Hm).
  destruct (@tableEntry_found _ _ _ _ Hb Hm) as [Hsome _].
  assert (Hp : price' = price) by congruence. subst price'.
  assert (Hin := @priceList_complete _ _ _ _ Hb Hm).
  destruct (proj1 (Forall_forall _ _) priceList_positive _ Hin)
    as [_ Hwhole].
  cbn [snd] in Hwhole. rewrite <- Hwhole at 1.
  rewrite Qround_half_up_Z. exact Hwhole.
Qed.

Lemma marketBaseline_exact (now : Date) (make model : option string)
    (year finalScore : Q) :
  marketBaseline (calculateMarketValuation now make model year finalScore)
  = Qround_half_up
      (lookupBaseline make model * (1 - depreciationRate now year)).
Proof. reflexivity. Qed.

Lemma estimatedValue_exact (now : Date) (make model : option string)
    (year finalScore : Q) :
  estimatedValue (calculateMarketValuation now make model year finalScore)
  = Qround_half_up
      (lookupBaseline make model * (1 - depreciationRate now year)
       * (finalScore / 10)).
Proof. reflexivity. Qed.

(** X6: with age the current year minus the vehicle year: for an age
    that is not negative the depreciation rate is 0.08 per year up to
    the cap, between 0 and 0.5, and the depreciated baseline lies
    between half the looked-up price and the price; from an age of
    6.25 years on the rate is exactly 0.5 and the returned market
    baseline is half the price, rounded; at age 0 the rate is 0 and the
    returned market baseline is the looked-up price itself. *)
Theorem depreciation_schedule (now : Date) (make model : option string)
    (year finalScore : Q) :
  let age := inject_Z (getFullYear now) - year in
  let price := lookupBaseline (num := Q) make model in
  let v := calculateMarketValuation now make model year finalScore in
  (0 <= age ->
   0 <= depreciationRate now year <= 0.5 /\
   price / 2 <= adjustedBaseline now make model year <= price) /\
  (0 <= age <= 6.25 -> depreciationRate now year == age * 0.08) /\
  (6.25 <= age ->
   depreciationRate now year == 0.5 /\
   marketBaseline v == Math_round (price / 2)) /\
  (age == 0 ->
   depreciationRate now year == 0 /\ marketBaseline v == price).
Proof.
  intros age price v. subst v.
  rewrite marketBaseline_exact.
  unfold adjustedBaseline. cbn [mul sub lit Exact Math_round].
  fold price.
  assert (Hp := lookupBaseline_positive make model). fold price in Hp.
  assert (Hw := lookupBaseline_whole make model). fold price in Hw.
  assert (Hr : depreciationRate now year == Qmin (age * 0.08) 0.5)
    by reflexivity.
  set (r := depreciationRate now year) in *. clearbody r.
  clearbody price.
  repeat split.
  - rewrite Hr. apply Q.min_glb; lra.
  - rewrite Hr. apply Q.le_min_r.
  - assert (Hcap : r <= 0.5) by (rewrite Hr; apply Q.le_min_r).
    assert (H0 : 0 <= price * (0.5 - r))
      by (apply Qmult_le_0_compat; lra).
    unfold Qdiv. change (/ 2) with (1 # 2). lra.
  - assert (Hlo : 0 <= r) by (rewrite Hr; apply Q.min_glb; lra).
    assert (H0 : 0 <= price * r) by (apply Qmult_le_0_compat; lra).
    lra.
  - intros [Hlo Hhi]. rewrite Hr. apply Q.min_l. lra.
  - rewrite Hr. apply Q.min_r. lra.
  - assert (Hhalf : r == 0.5) by (rewrite Hr; apply Q.min_r; lra).
    rewrite Hhalf.
    assert (Heq : price * (1 - 0.5) == price / 2)
      by (unfold Qdiv; change (/ 2) with (1 # 2); ring).
    rewrite Heq. reflexivity.
  - rewrite Hr. rewrite (Q.min_l (age * 0.08) 0.5) by lra. lra.
  - assert (Hzero : r == 0)
      by (rewrite Hr; rewrite (Q.min_l (age * 0.08) 0.5) by lra; lra).
    rewrite Hzero.
    assert (Heq : price * (1 - 0) == price) by ring.
    rewrite Heq. exact Hw.
Qed.

Lemma depreciation_schedule_witness :
  depreciationRate (num := Q) Sample.jan2025 2015 == 0.5
  /\ marketBaseline
       (calculateMarketValuation (num := Q) Sample.jan2025
          (Some "Honda"%string) (Some "Pridor"%string) 2015 9.4)
     == Math_round (lookupBaseline (num := Q) (Some "Honda"%string)
                                   (Some "Pridor"%string) / 2).
Proof.
  apply (depreciation_schedule Sample.jan2025 (Some "Honda"%string)
           (Some "Pridor"%string) 2015 9.4).
  discriminate.
Defined.

(** ** The estimate follows the score and the year *)

(** X7: for fixed make, model and clock: a higher final score never
    lowers the estimated value, a later vehicle year never lowers the
    returned market baseline nor, for a final score that is not
    negative, the estimated value; a final score of 10 estimates the
    vehicle at the returned market baseline and a final score of 0 at
    0. *)
Theorem estimate_monotone (now : Date) (make model : option string)
    (year year' finalScore finalScore' : Q) :
  let v := calculateMarketValuation now make model in
  (finalScore <= finalScore' ->
   estimatedValue (v year finalScore)
   <= estimatedValue (v year finalScore')) /\
  (year <= year' ->
   marketBaseline (v year finalScore)
   <= marketBaseline (v year' finalScore) /\
   (0 <= finalScore ->
    estimatedValue (v year finalScore)
    <= estimatedValue (v year' finalScore))) /\
  (finalScore == 10 ->
   estimatedValue (v year finalScore)
   == marketBaseline (v year finalScore)) /\
  (finalScore == 0 -> estimatedValue (v year finalScore) == 0).
Proof.
  intro v. subst v.
  rewrite !marketBaseline_exact, !estimatedValue_exact.
  assert (Hp := lookupBaseline_positive make model).
  assert (Hr : depreciationRate now year
               == Qmin ((inject_Z (getFullYear now) - year) * 0.08) 0.5)
    by reflexivity.
  assert (Hr' : depreciationRate now year'
                == Qmin ((inject_Z (getFullYear now) - year') * 0.08) 0.5)
    by reflexivity.
  set (price := lookupBaseline make model) in *. clearbody price.
  set (r := depreciationRate now year) in *. clearbody r.
  set (r' := depreciationRate now year') in *. clearbody r'.
  assert (Hcap : r <= 0.5) by (rewrite Hr; apply Q.le_min_r).
  assert (Ha : 0 <= price * (1 - r)) by (apply Qmult_le_0_compat; lra).
  repeat split.
  - intro Hs. apply Qround_half_up_le.
    assert (H0 : 0 <= price * (1 - r) * (finalScore' / 10 - finalScore / 10)).
    { apply Qmult_le_0_compat; [ exact Ha | ].
      unfold Qdiv. change (/ 10) with (1 # 10). lra. }
    lra.
  - apply Qround_half_up_le.
    assert (Hrr : r' <= r).
    { rewrite Hr, Hr'. apply Q.min_le_compat_r. lra. }
    assert (H0 : 0 <= price * (r - r')) by (apply Qmult_le_0_compat; lra).
    lra.
  - intro Hs. apply Qround_half_up_le.
    assert (Hrr : r' <= r).
    { rewrite Hr, Hr'. apply Q.min_le_compat_r. lra. }
    assert (H0 : 0 <= price * (r - r')) by (apply Qmult_le_0_compat; lra).
    assert (H1 : 0 <= price * (r - r') * (finalScore / 10)).
    { apply Qmult_le_0_compat; [ exact H0 | ].
      unfold Qdiv. change (/ 10) with (1 # 10). lra. }
    lra.
  - intro Hs. rewrite Hs.
    assert (Heq : price * (1 - r) * (10 / 10) == price * (1 - r))
      by (unfold Qdiv; change (/ 10) with (1 # 10); ring).
    rewrite Heq. reflexivity.
  - intro Hs. rewrite Hs.
    assert (Heq : price * (1 - r) * (0 / 10) == inject_Z 0)
      by (unfold Qdiv; change (inject_Z 0) with 0; ring).
    rewrite Heq. rewrite Qround_half_up_Z. reflexivity.
Qed.

Lemma estimate_monotone_witness :
  estimatedValue
    (calculateMarketValuation (num := Q) Sample.jan2025
       (Some "Honda"%string) (Some "Pridor"%string) 2024 4.7)
  <= estimatedValue
       (calculateMarketValuation (num := Q) Sample.jan2025
          (Some "Honda"%string) (Some "Pridor"%string) 2024 9.4).
Proof.
  apply (estimate_monotone Sample.jan2025 (Some "Honda"%string)
           (Some "Pridor"%string) 2024 2024 4.7 9.4).
  discriminate.
Defined.

(** ** Names with a space are never found *)

(** The character occurs in the string. *)
Fixpoint occurs (c : ascii) (s : string) : bool :=
  match s with
  | EmptyString => false
  | String c' s' => (Ascii.eqb c' c || occurs c s')%bool
  end.

Lemma toLowerCase_keeps_space (s : string) :
  occurs " " s = true -> occurs " " (toLowerCase s) = true.
Proof.
  induction s as [ | c s IH ]; cbn; [ discriminate | ].
  destruct (Ascii.eqb_spec c " ") as [-> | Hc].
  - intros _. reflexivity.
  - cbn. intro Hs. rewrite (IH Hs). apply orb_true_r.
Qed.

(** No key of the pricing table, brand or model, has a space. *)
Lemma priceList_no_space :
  Forall (fun e => occurs " " (fst (fst e)) = false
                   /\ occurs " " (snd (fst e)) = false)
         priceList.
Proof. each_price. Qed.

Lemma tableEntry_no_space (brand model : string) :
  occurs " " brand = true \/ occurs " " model = true ->
  tableEntry brand model = None.
Proof.
  intro Hspace.
  destruct (tableEntry brand model) as [ price | ] eqn:E;
    [ | reflexivity ].
  destruct (@tableEntry_In _ _ _ E) as (models & price' & Hb & Hm).
  assert (Hin := @priceList_complete _ _ _ _ Hb Hm).
  destruct (proj1 (Forall_forall _ _) priceList_no_space _ Hin)
    as [H1 H2].
  cbn [fst snd] in H1, H2. destruct Hspace; congruence.
Qed.

(** X8: a make or a model that contains a space is never found in the
    pricing table, whose keys are written with hyphens: the valuation
    starts from the fallback 200000, in either number model. *)
Theorem name_with_space_falls_back (num : Type) (N : JSNumber num)
    (make model : string) :
  occurs " " make = true \/ occurs " " model = true ->
  lookupBaseline (Some make) (Some model) = lit 200000.
Proof.
  intro Hspace. unfold lookupBaseline, baselineEntry. cbn.
  rewrite tableEntry_no_space; [ reflexivity | ].
  destruct Hspace as [H | H]; [ left | right ];
    apply toLowerCase_keeps_space; exact H.
Qed.

Lemma name_with_space_falls_back_witness :
  lookupBaseline (num := float) (Some "Road Prince"%string)
                 (Some "RX3"%string)
  = lit 200000.
Proof.
  apply (name_with_space_falls_back float Binary64 "Road Prince"%string
           "RX3"%string).
  left. reflexivity.
Defined.

(** ** The seeded catalogue against the pricing table *)

(** The seeded models (seed script, [modelsData]): brand name, model
    name and [basePrice2025]. *)
Definition modelsData : list (string * string * Q) :=
  [ ("Honda", "CD 70", 159900);
    ("Honda", "CD 70 Dream", 168900);
    ("Honda", "CG 125", 238500);
    ("Honda", "CG 125 Special Edition", 282900);
    ("Honda", "Pridor", 211900);
    ("Honda", "CB 125F", 390900);
    ("Honda", "CB 150F", 497900);
    ("Suzuki", "GD 110S", 369900);
    ("Suzuki", "GS 150", 389000);
    ("Suzuki", "GSX 125", 499000);
    ("Suzuki", "GR 150", 552900);
    ("Yamaha", "YBR 125", 471500);
    ("Yamaha", "YBR 125G", 490500);
    ("Yamaha", "YB 125Z", 429000);
    ("United Motors", "US 70", 111000);
    ("United Motors", "US 100", 108500);
    ("United Motors", "US 100 Jazba", 79000);
    ("United Motors", "US 125 Euro II", 79500);
    ("United Motors", "US 150 Ultimate Thrill", 347500);
    ("Road Prince", "RP 70", 111000);
    ("Road Prince", "70 Passion Plus", 121000);
    ("Road Prince", "RP 125", 167000);
    ("Road Prince", "150 Wego", 419000);
    ("Road Prince", "150 Robinson", 419000);
    ("Road Prince", "RX3", 1100000);
    ("Unique", "UD 70", 118500);
    ("Unique", "125cc", 141000);
    ("Unique", "150cc", 285000);
    ("Unique", "Crazer UD-150", 685000) ]%string%Q.

(** The seeded models whose brand and model names, lower-cased, are
    keys of the pricing table. *)
Definition pricedFromTable (brand model : string) : bool :=
  existsb (fun bm => (String.eqb brand (fst bm)
                      && String.eqb model (snd bm))%bool)
          [ ("Honda", "Pridor"); ("Unique", "125cc");
            ("Unique", "150cc") ]%string.

(** X9: the inspection form submits the brand name as make and the
    model name as model; of the 29 seeded models only Honda Pridor,
    Unique 125cc and Unique 150cc are then valued from the pricing table,
    at their seeded 2025 price, and the other 26 from the fallback
    200000, in either number model. *)
Theorem seeded_catalogue_lookup (num : Type) (N : JSNumber num) :
  Forall (fun e =>
            let '(brand, model, basePrice2025) := e in
            lookupBaseline (Some brand) (Some model)
            = if pricedFromTable brand model
              then lit basePrice2025
              else lit 200000)
         modelsData
  /\ length modelsData = 29%nat
  /\ length (filter (fun e => pricedFromTable (fst (fst e)) (snd (fst e)))
                    modelsData) = 3%nat.
Proof.
  split; [ | split; reflexivity ].
  unfold modelsData.
  repeat (apply Forall_cons; [ vm_compute; reflexivity | ]).
  apply Forall_nil.
Qed.

(** * The validation schema *)

(** The category objects of [insertInspectionSchema] (shared schema,
    the [extend] call): enums, percentages from 0 to 100, counts from
    0. The boolean fields are booleans by their type here. *)
Module Schema.

Definition isOneOf (values : list string) (x : string) : bool :=
  existsb (String.eqb x) values.

Definition engine (e : EngineData.t) : Prop :=
  isOneOf ["none"; "minor"; "major"]%string (EngineData.oilLeaks e) = true
  /\ isOneOf ["none"; "light"; "heavy"]%string (EngineData.smoke e) = true.

Definition brakes (b : BrakesData.t Q) : Prop :=
  0 <= BrakesData.padRemaining b <= 100.

Definition tires (t : TiresData.t Q) : Prop :=
  0 <= TiresData.treadRemaining t <= 100.

Definition electricals (e : ElectricalsData.t) : Prop :=
  isOneOf ["good"; "fair"; "poor"]%string
          (ElectricalsData.batteryCondition e) = true.

Definition body (b : BodyData.t Q) : Prop :=
  0 <= BodyData.minorScratches b /\ 0 <= BodyData.bigScratches b /\
  0 <= BodyData.smallDents b /\ 0 <= BodyData.bigDents b /\
  isOneOf ["excellent"; "good"; "fair"; "poor"]%string
          (BodyData.fairingCondition b) = true.

Definition categories (d : InspectionData Q) : Prop :=
  engine (engineData d) /\ brakes (brakesData d) /\ tires (tiresData d) /\
  electricals (electricalsData d) /\ body (bodyData d).

End Schema.

Lemma schema_counts (d : InspectionData Q) :
  Schema.categories d -> countsNonNegative (bodyData d).
Proof.
  intros (_ & _ & _ & _ & H1 & H2 & H3 & H4 & _).
  unfold countsNonNegative. auto.
Qed.

(** X10: a payload whose category objects pass the validation schema
    has each of its nine returned scores on the grid of whole tenths
    from 0.0 to 10.0, and a final score from 3.3 to 10. *)
Theorem validated_payload_scores (d : InspectionData Q) :
  Schema.categories d ->
  let r := calculateInspectionScores d in
  (onTenthGrid (engineScore r) /\ onTenthGrid (frameScore r) /\
   onTenthGrid (suspensionScore r) /\ onTenthGrid (brakesScore r) /\
   onTenthGrid (tiresScore r) /\ onTenthGrid (electricalsScore r) /\
   onTenthGrid (bodyScore r) /\ onTenthGrid (documentsScore r) /\
   onTenthGrid (finalScore r))
  /\ 3.3 <= finalScore r <= 10.
Proof.
  intros Hvalid r. subst r. apply schema_counts in Hvalid.
  split.
  - exact (scores_on_grid d Hvalid).
  - split; [ apply finalScore_floor | apply finalScore_ceiling, Hvalid ].
Qed.

Lemma validated_payload_scores_witness :
  3.3 <= finalScore (calculateInspectionScores lightlyScratched) <= 10.
Proof.
  apply (validated_payload_scores lightlyScratched).
  unfold Schema.categories, Schema.engine, Schema.brakes, Schema.tires,
    Schema.electricals, Schema.body.
  cbn. repeat split; discriminate.
Defined.

(** * The client's reading of the scores *)

(** The comparison [x >= y] and the truthiness of a number. *)
Class JSCompare (num : Type) : Type := {
  ge : num -> num -> bool;
  truthy : num -> bool
}.

#[export] Instance ExactCompare : JSCompare Q := {
  ge := fun x y => Qle_bool y x;
  truthy := fun x => negb (Qeq_bool x 0)
}.

#[export] Instance Binary64Compare : JSCompare float := {
  ge := fun x y => PrimFloat.leb y x;
  truthy := fun x => negb (PrimFloat.is_zero x || PrimFloat.is_nan x)
}.

(** ** The score gauge component *)

Module ScoreGauge.

Section Gauge.

Context {num : Type} `{JSNumber num} `{JSCompare num}.

Local Open Scope js_scope.

(** line 16 *)
Definition normalizedScore (score : num) : num :=
  Math_max (lit 0) (Math_min (lit 10) score).

(** line 17 *)
Definition percentage (score : num) : num :=
  (normalizedScore score / lit 10) * lit 100.

(** line 18 *)
Definition circumference : num := lit 314.

(** line 19 *)
Definition strokeDashoffset (score : num) : num :=
  circumference - (percentage score / lit 100) * circumference.

(** lines 21-25 *)
Definition getScoreColor (score : num) : string :=
  if ge score (lit 8) then "var(--success)"%string
  else if ge score (lit 5) then "var(--warning)"%string
  else "var(--destructive)"%string.

(** lines 27-31 *)
Definition getScoreClass (score : num) : string :=
  if ge score (lit 8) then "score-excellent"%string
  else if ge score (lit 5) then "score-fair"%string
  else "score-poor"%string.

End Gauge.

End ScoreGauge.

Lemma normalizedScore_exact (score : Q) :
  ScoreGauge.normalizedScore score = Qmax 0 (Qmin 10 score).
Proof. reflexivity. Qed.

Lemma strokeDashoffset_exact (score : Q) :
  ScoreGauge.strokeDashoffset score
  == 314 - 31.4 * ScoreGauge.normalizedScore score.
Proof.
  unfold ScoreGauge.strokeDashoffset, ScoreGauge.percentage,
    ScoreGauge.circumference.
  cbn [mul sub div lit Exact].
  generalize (ScoreGauge.normalizedScore score). intro n.
  unfold Qdiv. change (/ 10) with (1 # 10). change (/ 100) with (1 # 100).
  ring.
Qed.

Lemma normalizedScore_range (score : Q) :
  0 <= ScoreGauge.normalizedScore score <= 10.
Proof.
  rewrite normalizedScore_exact. split.
  - apply Q.le_max_l.
  - apply Q.max_lub; [ lra | apply Q.le_min_l ].
Qed.

Lemma normalizedScore_le (score score' : Q) :
  score <= score' ->
  ScoreGauge.normalizedScore score <= ScoreGauge.normalizedScore score'.
Proof.
  intro Hs. rewrite !normalizedScore_exact.
  apply Q.max_le_compat_l. apply Q.min_le_compat_l. exact Hs.
Qed.

Lemma normalizedScore_id (score : Q) :
  0 <= score <= 10 -> ScoreGauge.normalizedScore score == score.
Proof.
  intros [Hlo Hhi]. rewrite normalizedScore_exact.
  rewrite (Q.min_r 10 score) by exact Hhi. apply Q.max_r. exact Hlo.
Qed.

(** The gauge on the 101 scores of the grid in double precision: the
    score is shown unchanged and the dash offset stays in the circle. *)
Definition gaugeOnGrid64 (k : nat) : bool :=
  let score : float := (lit (inject_Z (Z.of_nat k)) / lit 10)%js in
  (PrimFloat.eqb (ScoreGauge.normalizedScore score) score
   && PrimFloat.leb (lit 0) (ScoreGauge.strokeDashoffset score)
   && PrimFloat.leb (ScoreGauge.strokeDashoffset score) (lit 314))%bool.

(** X11: the gauge clamps the score into 0..10 and leaves a score
    inside that range unchanged; its dash offset is 314 minus 31.4 per
    point of the clamped score, so it lies between 0 and 314, is 314 for
    every score up to 0 and 0 for every score from 10 on, and never
    grows with the score; in double precision the same holds on each of
    the 101 scores 0.0, 0.1, ..., 10.0. *)
Theorem gauge_geometry :
  (forall score : Q,
      0 <= ScoreGauge.normalizedScore score <= 10 /\
      ScoreGauge.strokeDashoffset score
      == 314 - 31.4 * ScoreGauge.normalizedScore score /\
      0 <= ScoreGauge.strokeDashoffset score <= 314)
  /\ (forall score : Q,
         (0 <= score <= 10 -> ScoreGauge.normalizedScore score == score) /\
         (score <= 0 -> ScoreGauge.strokeDashoffset score == 314) /\
         (10 <= score -> ScoreGauge.strokeDashoffset score == 0))
  /\ (forall score score' : Q,
         score <= score' ->
         ScoreGauge.strokeDashoffset score'
         <= ScoreGauge.strokeDashoffset score)
  /\ (forall k : nat, (k <= 100)%nat -> gaugeOnGrid64 k = true).
Proof.
  split; [ | split; [ | split ] ].
  - intro score.
    assert (Hn := normalizedScore_range score).
    assert (Ho := strokeDashoffset_exact score).
    split; [ exact Hn | split; [ exact Ho | ] ].
    rewrite Ho. split; lra.
  - intro score. split; [ apply normalizedScore_id | split ].
    + intro Hs. rewrite strokeDashoffset_exact, normalizedScore_exact.
      rewrite (Q.max_l 0 (Qmin 10 score)).
      * ring.
      * apply Qle_trans with score; [ apply Q.le_min_r | exact Hs ].
    + intro Hs. rewrite strokeDashoffset_exact, normalizedScore_exact.
      rewrite (Q.min_l 10 score) by exact Hs.
      rewrite (Q.max_r 0 10) by lra. ring.
  - intros score score' Hs.
    rewrite !strokeDashoffset_exact.
    assert (Hn := normalizedScore_le score score' Hs). lra.
  - intros k Hk.
    assert (Hall : forallb gaugeOnGrid64 (seq 0 101) = true)
      by (vm_compute; reflexivity).
    apply (proj1 (forallb_forall _ _) Hall). apply in_seq. lia.
Qed.

Lemma gauge_geometry_witness :
  ScoreGauge.normalizedScore (num := Q) 9.4 == 9.4
  /\ ScoreGauge.strokeDashoffset (num := Q) 12 == 0.
Proof.
  split.
  - apply (proj1 (proj2 gauge_geometry) 9.4). split; discriminate.
  - apply (proj1 (proj2 gauge_geometry) 12). discriminate.
Defined.

(** ** Strings of the pages *)

Module JSString.

(** [s.startsWith(p)] *)
Definition startsWith (s p : string) : bool := String.prefix p s.

(** [s.includes(sub)] *)
Fixpoint includes (s sub : string) : bool :=
  if String.prefix sub s then true
  else
    match s with
    | EmptyString => false
    | String _ s' => includes s' sub
    end.

(** [s || d] on strings: the empty string is falsy. *)
Definition orElse (s : option string) (d : string) : string :=
  match s with
  | Some t => if String.eqb t "" then d else t
  | None => d
  end.

End JSString.


(** ** Score bands on the pages *)

Module Dashboard.

Section Page.

Context {num : Type} `{JSNumber num} `{JSCompare num}.

(** lines 77-81 *)
Definition getScoreColor (score : num) : string :=
  if ge score (lit 8) then "text-green-600"%string
  else if ge score (lit 5) then "text-yellow-600"%string
  else "text-red-600"%string.

End Page.

(** What [formatTimeAgo] returns: the texts "Just now",
    "<n> hours ago", "1 day ago" and "<n> days ago". *)
Inductive TimeAgo : Type :=
| JustNow
| HoursAgo (n : Z)
| OneDayAgo
| DaysAgo (n : Z).

(** lines 89-99; [now] and [date] are the two [getTime()] values, in
    milliseconds *)
Definition formatTimeAgo (now date : Z) : TimeAgo :=
  let diffInHours := ((now - date) / (1000 * 60 * 60))%Z in
  if (diffInHours <? 1)%Z then JustNow
  else if (diffInHours <? 24)%Z then HoursAgo diffInHours
  else
    let diffInDays := (diffInHours / 24)%Z in
    if (diffInDays =? 1)%Z then OneDayAgo else DaysAgo diffInDays.

End Dashboard.

Module InspectionHistory.

Section Page.

Context {num : Type} `{JSNumber num} `{JSCompare num}.

(** [!score] on an optional number: [undefined], 0 and NaN. *)
Definition missing (score : option num) : bool :=
  match score with
  | Some s => negb (truthy s)
  | None => true
  end.

(** [score >= c] on an optional number; [undefined >= c] is false. *)
Definition optGe (score : option num) (c : num) : bool :=
  match score with
  | Some s => ge s c
  | None => false
  end.

(** lines 82-87 *)
Definition getScoreColor (score : option num) : string :=
  if missing score then "text-muted-foreground"%string
  else if optGe score (lit 8) then "text-green-600"%string
  else if optGe score (lit 5) then "text-yellow-600"%string
  else "text-red-600"%string.

(** lines 89-94 *)
Definition getScoreBadgeVariant (score : option num) : string :=
  if missing score then "secondary"%string
  else if optGe score (lit 8) then "default"%string
  else if optGe score (lit 5) then "secondary"%string
  else "destructive"%string.

End Page.




End InspectionHistory.

Module Reports.

Section Page.

Context {num : Type} `{JSNumber num} `{JSCompare num}.

(** lines 130-134 *)
Definition getScoreColor (score : num) : string :=
  if ge score (lit 8) then "text-green-600"%string
  else if ge score (lit 5) then "text-yellow-600"%string
  else "text-red-600"%string.

End Page.

End Reports.

Module InspectionResults.

(** The stored inspection, as far as the page reads it. *)
Module Stored.
Record t (num : Type) : Type := mk {
  status : string;
  engineScore : option num;
  frameScore : option num;
  suspensionScore : option num;
  brakesScore : option num;
  tiresScore : option num;
  electricalsScore : option num;
  bodyScore : option num;
  documentsScore : option num;
  finalScore : option num
}.
Arguments mk {num}.
Arguments status {num}.
Arguments engineScore {num}.
Arguments frameScore {num}.
Arguments suspensionScore {num}.
Arguments brakesScore {num}.
Arguments tiresScore {num}.
Arguments electricalsScore {num}.
Arguments bodyScore {num}.
Arguments documentsScore {num}.
Arguments finalScore {num}.
End Stored.

(** An entry of [categoryScores]. *)
Module CategoryScore.
Record t (num : Type) : Type := mk {
  name : string;
  score : num;
  weight : num
}.
Arguments mk {num}.
Arguments name {num}.
Arguments score {num}.
Arguments weight {num}.
End CategoryScore.

(** An entry of [majorIssues]. *)
Module Issue.
Record t (num : Type) : Type := mk {
  category : string;
  score : num;
  deduction : num
}.
Arguments mk {num}.
Arguments category {num}.
Arguments score {num}.
Arguments deduction {num}.
End Issue.

Section Page.

Context {num : Type} `{JSNumber num} `{JSCompare num}.

Local Open Scope js_scope.

(** [x ?? d] *)
Definition nullish (x : option num) (d : num) : num :=
  match x with
  | Some v => v
  | None => d
  end.

(** lines 165-174 *)
Definition categoryScores (inspection : Stored.t num)
    : list (CategoryScore.t num) :=
  [ CategoryScore.mk "Engine"
      (nullish (Stored.engineScore inspection) (lit 0)) (lit 40);
    CategoryScore.mk "Frame"
      (nullish (Stored.frameScore inspection) (lit 0)) (lit 15);
    CategoryScore.mk "Suspension"
      (nullish (Stored.suspensionScore inspection) (lit 0)) (lit 10);
    CategoryScore.mk "Brakes"
      (nullish (Stored.brakesScore inspection) (lit 0)) (lit 10);
    CategoryScore.mk "Tires"
      (nullish (Stored.tiresScore inspection) (lit 0)) (lit 10);
    CategoryScore.mk "Electricals"
      (nullish (Stored.electricalsScore inspection) (lit 0)) (lit 5);
    CategoryScore.mk "Body"
      (nullish (Stored.bodyScore inspection) (lit 0)) (lit 8);
    CategoryScore.mk "Documents"
      (nullish (Stored.documentsScore inspection) (lit 0)) (lit 2) ].


(** lines 129-133 *)
Definition getScoreColor (score : num) : string :=
  if ge score (lit 8) then "text-green-600"%string
  else if ge score (lit 5) then "text-yellow-600"%string
  else "text-red-600"%string.

(** lines 135-139 *)
Definition getConditionText (score : num) : string :=
  if ge score (lit 8) then "Excellent Condition"%string
  else if ge score (lit 5) then "Fair Condition"%string
  else "Poor Condition"%string.

(** line 176; [finalScore] is the stored final score *)
Definition conditionAdjustment (finalScore : option num) : num :=
  match finalScore with
  | Some s => if truthy s then ((s / lit 10) - lit 1) * lit 100 else lit 0
  | None => lit 0
  end.

End Page.

End InspectionResults.

(** The three bands of the chart legend: "Excellent (8-10)",
    "Fair (5-7.9)" and "Poor (0-4.9)". *)
Inductive Band : Type := Excellent | Fair | Poor.

Definition inLegendRange (band : Band) (s : Q) : Prop :=
  match band with
  | Excellent => 8 <= s <= 10
  | Fair => 5 <= s <= 7.9
  | Poor => 0 <= s <= 4.9
  end.

(** What every page shows for a score of the band. *)
Definition shownAs (band : Band) (s : Q) : Prop :=
  let colour :=
    match band with
    | Excellent => "text-green-600"%string
    | Fair => "text-yellow-600"%string
    | Poor => "text-red-600"%string
    end in
  Dashboard.getScoreColor s = colour /\
  Reports.getScoreColor s = colour /\
  InspectionResults.getScoreColor s = colour /\
  InspectionHistory.getScoreColor (Some s)
  = (if Qeq_bool s 0 then "text-muted-foreground"%string else colour) /\
  InspectionResults.getConditionText s
  = match band with
    | Excellent => "Excellent Condition"%string
    | Fair => "Fair Condition"%string
    | Poor => "Poor Condition"%string
    end /\
  ScoreGauge.getScoreClass s
  = match band with
    | Excellent => "score-excellent"%string
    | Fair => "score-fair"%string
    | Poor => "score-poor"%string
    end.

Lemma grid_gap (k : Z) (lo : Z) (s : Q) :
  s == inject_Z k / 10 -> ~ inject_Z lo <= s ->
  s <= inject_Z (10 * lo - 1) / 10.
Proof.
  intros Hs Hn. apply Qnot_le_lt in Hn.
  assert (Hk : (k < 10 * lo)%Z).
  { rewrite Zlt_Qlt. rewrite inject_Z_mult. change (inject_Z 10) with 10.
    rewrite Hs in Hn. unfold Qdiv in Hn. change (/ 10) with (1 # 10) in Hn.
    lra. }
  assert (Hk' : (k <= 10 * lo - 1)%Z) by lia.
  rewrite Zle_Qle in Hk'. rewrite Hs.
  unfold Qdiv. change (/ 10) with (1 # 10). lra.
Qed.

(** X12: every score on the grid of whole tenths from 0.0 to 10.0 lies
    in exactly the legend range of its band, 8-10, 5-7.9 or 0-4.9, and
    the dashboard, the reports page, the results page and the gauge
    all show it as that band; the history page does too, except that
    it shows the score 0 as missing. *)
Theorem score_bands_agree (s : Q) :
  onTenthGrid s ->
  exists band : Band, inLegendRange band s /\ shownAs band s.
Proof.
  intros (k & [Hk0 Hk100] & Hs).
  assert (Hlo : 0 <= s).
  { rewrite Hs. rewrite Zle_Qle in Hk0. unfold Qdiv.
    change (/ 10) with (1 # 10). change (inject_Z 0) with 0 in Hk0. lra. }
  assert (Hhi : s <= 10).
  { rewrite Hs. rewrite Zle_Qle in Hk100. unfold Qdiv.
    change (/ 10) with (1 # 10). change (inject_Z 100) with 100 in Hk100.
    lra. }
  unfold shownAs, Dashboard.getScoreColor, Reports.getScoreColor,
    InspectionResults.getScoreColor, InspectionHistory.getScoreColor,
    InspectionResults.getConditionText, ScoreGauge.getScoreClass,
    InspectionHistory.missing, InspectionHistory.optGe.
  cbn [ge truthy ExactCompare lit Exact].
  destruct (Qle_bool 8 s) eqn:E8.
  - apply Qle_bool_iff in E8. exists Excellent. cbn.
    assert (Hz : Qeq_bool s 0 = false).
    { apply not_true_is_false. intro Hz. apply Qeq_bool_iff in Hz. lra. }
    rewrite Hz. cbn. repeat split; try reflexivity; assumption.
  - assert (H8 : ~ inject_Z 8 <= s).
    { intro H. change (inject_Z 8) with 8 in H.
      apply Qle_bool_iff in H. congruence. }
    assert (H79 := grid_gap k 8 s Hs H8).
    destruct (Qle_bool 5 s) eqn:E5.
    + apply Qle_bool_iff in E5. exists Fair. cbn.
      assert (Hz : Qeq_bool s 0 = false).
      { apply not_true_is_false. intro Hz. apply Qeq_bool_iff in Hz. lra. }
      rewrite Hz. cbn. repeat split; try reflexivity; try assumption.
    + assert (H5 : ~ inject_Z 5 <= s).
      { intro H. change (inject_Z 5) with 5 in H.
        apply Qle_bool_iff in H. congruence. }
      assert (H49 := grid_gap k 5 s Hs H5).
      exists Poor. cbn.
      destruct (Qeq_bool s 0); cbn;
        repeat split; try reflexivity; try assumption.
Qed.

Lemma score_bands_agree_witness :
  exists band : Band, inLegendRange band 7.9 /\ shownAs band 7.9.
Proof.
  apply (score_bands_agree 7.9).
  exists 79%Z. split; [ lia | reflexivity ].
Defined.

(** ** The value breakdown of the results page *)

Lemma Qround_half_up_near (x : Q) :
  x - (1 # 2) <= Qround_half_up x <= x + (1 # 2).
Proof.
  unfold Qround_half_up.
  assert (Hlo := Qfloor_le (x + (1 # 2))).
  assert (Hhi := Qlt_floor (x + (1 # 2))).
  rewrite inject_Z_plus in Hhi. change (inject_Z 1) with 1 in Hhi.
  split; lra.
Qed.

(** X13: for a payload whose scratch and dent counts are not negative,
    the condition adjustment the results page derives from the stored
    final score lies between -67 and 0 percent, so it is never shown
    with a plus sign, and the breakdown adds up: the market baseline
    changed by that percentage is within 1 of the estimated value the
    server returned. *)
Theorem value_breakdown_adds_up (now : Date) (d : InspectionData Q) :
  countsNonNegative (bodyData d) ->
  let s := calculateInspectionScores d in
  let v := calculateMarketValuation now (make d) (model d) (year d)
             (finalScore s) in
  let ca := InspectionResults.conditionAdjustment (Some (finalScore s)) in
  -67 <= ca <= 0 /\
  -1 <= estimatedValue v - marketBaseline v * (1 + ca / 100) <= 1.
Proof.
  intros Hc s v ca. subst v ca.
  rewrite marketBaseline_exact, estimatedValue_exact.
  assert (Hlo := finalScore_floor d).
  assert (Hhi := finalScore_ceiling d Hc).
  fold s in Hlo, Hhi. set (fs := finalScore s) in *. clearbody fs.
  clear s Hc.
  unfold InspectionResults.conditionAdjustment.
  cbn [truthy ExactCompare lit mul sub div Exact].
  assert (Hz : Qeq_bool fs 0 = false).
  { apply not_true_is_false. intro Hz. apply Qeq_bool_iff in Hz. lra. }
  rewrite Hz. cbn [negb].
  set (ab := lookupBaseline (make d) (model d)
             * (1 - depreciationRate now (year d))).
  assert (H1 := Qround_half_up_near ab).
  assert (H2 := Qround_half_up_near (ab * (fs / 10))).
  set (mb := Qround_half_up ab) in *. clearbody mb.
  set (ev := Qround_half_up (ab * (fs / 10))) in *. clearbody ev.
  clearbody ab.
  unfold Qdiv in *. change (/ 10) with (1 # 10) in *.
  change (/ 100) with (1 # 100).
  assert (Ha : 0 <= ((1 # 2) - (ab - mb)) * (fs * (1 # 10)))
    by (apply Qmult_le_0_compat; lra).
  assert (Hb : 0 <= ((1 # 2) + (ab - mb)) * (fs * (1 # 10)))
    by (apply Qmult_le_0_compat; lra).
  assert (Hd : 0 <= ((1 # 2) - (ab - mb)) * (1 - fs * (1 # 10)))
    by (apply Qmult_le_0_compat; lra).
  assert (He : 0 <= ((1 # 2) + (ab - mb)) * (1 - fs * (1 # 10)))
    by (apply Qmult_le_0_compat; lra).
  repeat split; lra.
Qed.

Lemma value_breakdown_adds_up_witness :
  let s := calculateInspectionScores lightlyScratched in
  let v := calculateMarketValuation Sample.jan2025 (make lightlyScratched)
             (model lightlyScratched) (year lightlyScratched)
             (finalScore s) in
  let ca := InspectionResults.conditionAdjustment (Some (finalScore s)) in
  -67 <= ca <= 0 /\
  -1 <= estimatedValue v - marketBaseline v * (1 + ca / 100) <= 1.
Proof.
  apply (value_breakdown_adds_up Sample.jan2025 lightlyScratched).
  vm_compute. repeat split; discriminate.
Defined.

(** ** Elapsed time on the dashboard *)

(** X14: with the elapsed time in milliseconds: below one hour, also
    for a date in the future, the dashboard shows "Just now"; from one
    hour to below 24 hours it shows the whole hours elapsed, between 1
    and 23, with the word "hours" also for 1; from 24 to below 48 hours
    it shows "1 day ago"; from 48 hours on it shows the whole days
    elapsed, at least 2. *)
Theorem time_ago_bands (now date : Z) :
  let elapsed := (now - date)%Z in
  let shown := Dashboard.formatTimeAgo now date in
  ((elapsed < 3600000)%Z -> shown = Dashboard.JustNow) /\
  ((3600000 <= elapsed < 86400000)%Z ->
   shown = Dashboard.HoursAgo (elapsed / 3600000) /\
   (1 <= elapsed / 3600000 <= 23)%Z) /\
  ((3600000 <= elapsed < 7200000)%Z -> shown = Dashboard.HoursAgo 1) /\
  ((86400000 <= elapsed < 172800000)%Z -> shown = Dashboard.OneDayAgo) /\
  ((172800000 <= elapsed)%Z ->
   shown = Dashboard.DaysAgo (elapsed / 86400000) /\
   (2 <= elapsed / 86400000)%Z).
Proof.
  intros elapsed shown. subst shown. unfold Dashboard.formatTimeAgo.
  fold elapsed. clearbody elapsed.
  change (1000 * 60 * 60)%Z with 3600000%Z.
  assert (Hdays : (elapsed / 3600000 / 24 = elapsed / 86400000)%Z).
  { rewrite Z.div_div by lia. reflexivity. }
  rewrite Hdays.
  assert (Hh := Z.div_mod elapsed 3600000 ltac:(lia)).
  assert (Hhm := Z.mod_pos_bound elapsed 3600000 ltac:(lia)).
  assert (Hd := Z.div_mod elapsed 86400000 ltac:(lia)).
  assert (Hdm := Z.mod_pos_bound elapsed 86400000 ltac:(lia)).
  set (h := (elapsed / 3600000)%Z) in *.
  set (dd := (elapsed / 86400000)%Z) in *.
  repeat split.
  - intro He. assert (Hlt : (h <? 1)%Z = true) by (apply Z.ltb_lt; lia).
    rewrite Hlt. reflexivity.
  - assert (H1 : (h <? 1)%Z = false) by (apply Z.ltb_ge; lia).
    assert (H2 : (h <? 24)%Z = true) by (apply Z.ltb_lt; lia).
    rewrite H1, H2. reflexivity.
  - lia.
  - lia.
  - intro He.
    assert (H1 : (h <? 1)%Z = false) by (apply Z.ltb_ge; lia).
    assert (H2 : (h <? 24)%Z = true) by (apply Z.ltb_lt; lia).
    rewrite H1, H2. f_equal. lia.
  - intro He.
    assert (H1 : (h <? 1)%Z = false) by (apply Z.ltb_ge; lia).
    assert (H2 : (h <? 24)%Z = false) by (apply Z.ltb_ge; lia).
    assert (H3 : (dd =? 1)%Z = true) by (apply Z.eqb_eq; lia).
    rewrite H1, H2, H3. reflexivity.
  - assert (H1 : (h <? 1)%Z = false) by (apply Z.ltb_ge; lia).
    assert (H2 : (h <? 24)%Z = false) by (apply Z.ltb_ge; lia).
    assert (H3 : (dd =? 1)%Z = false) by (apply Z.eqb_neq; lia).
    rewrite H1, H2, H3. reflexivity.
  - lia.
Qed.

Lemma time_ago_bands_witness :
  Dashboard.formatTimeAgo 1735732800000 1735729200000
  = Dashboard.HoursAgo 1.
Proof.
  apply (time_ago_bands 1735732800000 1735729200000).
  cbn. lia.
Defined.

(** ** The inspection form *)

Module NewInspection.

(** [keyof typeof counters] *)
Inductive CounterField : Type :=
| MinorScratches
| BigScratches
| SmallDents
| BigDents.

Record Counters (num : Type) : Type := mkCounters {
  minorScratches : num;
  bigScratches : num;
  smallDents : num;
  bigDents : num
}.

Arguments mkCounters {num}.
Arguments minorScratches {num}.
Arguments bigScratches {num}.
Arguments smallDents {num}.
Arguments bigDents {num}.

(** The two buttons of a counter: [updateCounter(key, -1)] and
    [updateCounter(key, 1)], lines 632 and 645. *)
Inductive Click : Type :=
| Decrease (field : CounterField)
| Increase (field : CounterField).

Section Form.

Context {num : Type} `{JSNumber num}.

Local Open Scope js_scope.

(** lines 48-53 *)
Definition initialCounters : Counters num :=
  mkCounters (lit 0) (lit 0) (lit 0) (lit 0).

(** [prev[field]] *)
Definition counter (prev : Counters num) (field : CounterField) : num :=
  match field with
  | MinorScratches => minorScratches prev
  | BigScratches => bigScratches prev
  | SmallDents => smallDents prev
  | BigDents => bigDents prev
  end.

(** [{ ...prev, [field]: newValue }] *)
Definition withCounter (prev : Counters num) (field : CounterField)
    (newValue : num) : Counters num :=
  match field with
  | MinorScratches =>
      mkCounters newValue (bigScratches prev) (smallDents prev)
                 (bigDents prev)
  | BigScratches =>
      mkCounters (minorScratches prev) newValue (smallDents prev)
                 (bigDents prev)
  | SmallDents =>
      mkCounters (minorScratches prev) (bigScratches prev) newValue
                 (bigDents prev)
  | BigDents =>
      mkCounters (minorScratches prev) (bigScratches prev)
                 (smallDents prev) newValue
  end.

(** lines 204-217: the new state of [counters] *)
Definition updateCounter (field : CounterField) (delta : num)
    (prev : Counters num) : Counters num :=
  let newValue := Math_max (lit 0) (counter prev field + delta) in
  withCounter prev field newValue.

Definition click (prev : Counters num) (c : Click) : Counters num :=
  match c with
  | Decrease field => updateCounter field (lit (-1)) prev
  | Increase field => updateCounter field (lit 1) prev
  end.

(** The state of [counters] after a run of clicks on a fresh form. *)
Definition afterClicks (clicks : list Click) : Counters num :=
  fold_left click clicks initialCounters.

(** lines 267-274: [{ ...data.bodyData, ...counters }] inside
    [{ ...data, bodyData: ... }] *)
Definition onSubmit (data : InspectionData num)
    (counters : Counters num) : InspectionData num :=
  mkInspectionData (make data) (model data) (year data)
    (engineData data) (frameData data) (suspensionData data)
    (brakesData data) (tiresData data) (electricalsData data)
    (BodyData.mk (minorScratches counters) (bigScratches counters)
       (smallDents counters) (bigDents counters)
       (BodyData.cracks (bodyData data))
       (BodyData.repaintPanels (bodyData data))
       (BodyData.fairingCondition (bodyData data)))
    (documentsData data).

End Form.

(** line 379: [Array.from({ length: 10 }, (_, i) => new
    Date().getFullYear() - i)]; the selected year goes through
    [toString] and [parseInt], which give the same whole number back. *)
Definition yearOptions (now : Date) : list Z :=
  map (fun i => (getFullYear now - Z.of_nat i)%Z) (seq 0 10).

End NewInspection.

Definition wholeCounter (x : Q) : Prop :=
  exists n : Z, (0 <= n)%Z /\ x == inject_Z n.

Definition wholeCounters (c : NewInspection.Counters Q) : Prop :=
  wholeCounter (NewInspection.minorScratches c) /\
  wholeCounter (NewInspection.bigScratches c) /\
  wholeCounter (NewInspection.smallDents c) /\
  wholeCounter (NewInspection.bigDents c).

Lemma wholeCounter_step (x delta : Z) :
  (0 <= x)%Z ->
  wholeCounter (Qmax 0 (inject_Z x + inject_Z delta)).
Proof.
  intro Hx. exists (Z.max 0 (x + delta)). split; [ lia | ].
  rewrite <- inject_Z_plus.
  destruct (Z.le_ge_cases 0 (x + delta)) as [Hle | Hge].
  - rewrite Z.max_r by lia. apply Q.max_r.
    change 0 with (inject_Z 0). rewrite <- Zle_Qle. exact Hle.
  - rewrite Z.max_l by lia. apply Q.max_l.
    change 0 with (inject_Z 0). rewrite <- Zle_Qle. lia.
Qed.

Lemma wholeCounter_update (x : Q) (delta : Z) :
  wholeCounter x -> wholeCounter (Qmax 0 (x + inject_Z delta)).
Proof.
  intros (n & Hn & Hx).
  destruct (wholeCounter_step n delta Hn) as (m & Hm & Hmax).
  exists m. split; [ exact Hm | ].
  rewrite <- Hmax. rewrite Hx. reflexivity.
Qed.

Lemma click_wholeCounters (c : NewInspection.Counters Q)
    (k : NewInspection.Click) :
  wholeCounters c -> wholeCounters (NewInspection.click c k).
Proof.
  intros (H1 & H2 & H3 & H4).
  destruct k as [ [ | | | ] | [ | | | ] ];
    unfold wholeCounters, NewInspection.click, NewInspection.updateCounter;
    cbn [NewInspection.withCounter NewInspection.counter
         NewInspection.minorScratches NewInspection.bigScratches
         NewInspection.smallDents NewInspection.bigDents
         Math_max add lit Exact];
    repeat split; try assumption;
    first [ apply (wholeCounter_update _ (-1))
          | apply (wholeCounter_update _ 1) ]; assumption.
Qed.

Lemma clicks_wholeCounters (clicks : list NewInspection.Click)
    (c : NewInspection.Counters Q) :
  wholeCounters c -> wholeCounters (fold_left NewInspection.click clicks c).
Proof.
  revert c. induction clicks as [ | k clicks IH ]; intros c Hc.
  - exact Hc.
  - cbn [fold_left]. apply IH. apply click_wholeCounters. exact Hc.
Qed.

Lemma initial_wholeCounters : wholeCounters NewInspection.initialCounters.
Proof.
  repeat split; exists 0%Z; (split; [ lia | reflexivity ]).
Qed.

(** X15: after any run of clicks on the plus and minus buttons of a
    fresh form, the four counts submitted with the form data are whole
    numbers that are not negative; so the body score the server
    computes for the submitted payload lies between 0 and 10 and the
    final score between 3.3 and 10. *)
Theorem counter_clicks_keep_counts_valid
    (clicks : list NewInspection.Click) (data : InspectionData Q) :
  let payload :=
    NewInspection.onSubmit data (NewInspection.afterClicks clicks) in
  let s := calculateInspectionScores payload in
  wholeCounters (NewInspection.afterClicks clicks) /\
  countsNonNegative (bodyData payload) /\
  wholeCounts (bodyData payload) /\
  inRange (calculateBodyScore (bodyData payload)) /\
  3.3 <= finalScore s <= 10.
Proof.
  intros payload s.
  assert (Hw : wholeCounters (NewInspection.afterClicks clicks))
    by (apply clicks_wholeCounters, initial_wholeCounters).
  assert (Hc : countsNonNegative (bodyData payload)).
  { destruct Hw as ((n1 & Hn1 & E1) & (n2 & Hn2 & E2) & (n3 & Hn3 & E3)
                    & (n4 & Hn4 & E4)).
    unfold countsNonNegative, payload, NewInspection.onSubmit.
    cbn [bodyData BodyData.minorScratches BodyData.bigScratches
         BodyData.smallDents BodyData.bigDents].
    rewrite E1, E2, E3, E4. change 0 with (inject_Z 0).
    rewrite <- !Zle_Qle. repeat split; assumption. }
  split; [ exact Hw | ]. split; [ exact Hc | ]. split.
  - destruct Hw as ((n1 & _ & E1) & (n2 & _ & E2) & (n3 & _ & E3)
                    & (n4 & _ & E4)).
    exists n1, n2, n3, n4. repeat split; assumption.
  - split; [ apply body_in_range; exact Hc | ].
    split; [ apply finalScore_floor | apply finalScore_ceiling; exact Hc ].
Qed.

(** X16: when the server's clock is in the year the form was rendered
    in or a later one, every year the form offers gives a depreciation
    rate between 0 and 0.5 and a returned market baseline that is at
    most the looked-up price; and when both clocks are in the same year
    the option at position i gives the rate 0.08 i, capped at 0.5. *)
Theorem offered_years_depreciate (client server : Date)
    (make model : option string) (finalScore : Q) (i : nat) (y : Z) :
  (getFullYear client <= getFullYear server)%Z ->
  nth_error (NewInspection.yearOptions client) i = Some y ->
  let rate := depreciationRate (num := Q) server (inject_Z y) in
  let v := calculateMarketValuation server make model (inject_Z y)
             finalScore in
  0 <= rate <= 0.5 /\
  marketBaseline v <= lookupBaseline make model /\
  (getFullYear client = getFullYear server ->
   rate == Qmin (inject_Z (Z.of_nat i) * 0.08) 0.5).
Proof.
  intros Hclock Hy rate v. subst v.
  rewrite marketBaseline_exact. fold rate.
  assert (Hi : (i < 10)%nat /\ y = (getFullYear client - Z.of_nat i)%Z).
  { unfold NewInspection.yearOptions in Hy.
    rewrite nth_error_map in Hy.
    destruct (nth_error (seq 0 10) i) as [ j | ] eqn:E; [ | discriminate ].
    assert (Hlt : (i < length (seq 0 10))%nat)
      by (apply nth_error_Some; congruence).
    rewrite length_seq in Hlt.
    rewrite (nth_error_nth' _ 0%nat) in E by (rewrite length_seq; exact Hlt).
    rewrite seq_nth in E by exact Hlt.
    injection E as <-. cbn in Hy. injection Hy as <-.
    split; [ exact Hlt | reflexivity ]. }
  destruct Hi as [Hlt ->].
  assert (Hr : rate == Qmin ((inject_Z (getFullYear server)
                              - inject_Z (getFullYear client - Z.of_nat i))
                             * 0.08) 0.5) by reflexivity.
  assert (Hage : 0 <= inject_Z (getFullYear server)
                      - inject_Z (getFullYear client - Z.of_nat i)).
  { rewrite <- (Qplus_opp_r (inject_Z (getFullYear client - Z.of_nat i))).
    apply Qplus_le_l. rewrite <- Zle_Qle. lia. }
  assert (Hp := lookupBaseline_positive make model).
  assert (Hw := lookupBaseline_whole make model).
  set (price := lookupBaseline make model) in *. clearbody price.
  assert (Hrange : 0 <= rate <= 0.5).
  { rewrite Hr. split; [ apply Q.min_glb; lra | apply Q.le_min_r ]. }
  clearbody rate.
  split; [ exact Hrange | ]. split.
  - apply Qle_trans with (Qround_half_up price).
    + apply Qround_half_up_le.
      assert (H0 : 0 <= price * rate) by (apply Qmult_le_0_compat; lra).
      lra.
    + apply Qle_lteq. right. exact Hw.
  - intro Hsame. rewrite Hr, Hsame.
    assert (Hdiff : inject_Z (getFullYear server)
                    - inject_Z (getFullYear server - Z.of_nat i)
                    == inject_Z (Z.of_nat i)).
    { unfold Z.sub. rewrite inject_Z_plus, inject_Z_opp. ring. }
    rewrite Hdiff. reflexivity.
Qed.

Lemma offered_years_depreciate_witness :
  let rate := depreciationRate (num := Q) Sample.dec2025 (inject_Z 2018) in
  let v := calculateMarketValuation Sample.dec2025 (Some "Honda"%string)
             (Some "Pridor"%string) (inject_Z 2018) 9.4 in
  0 <= rate <= 0.5 /\
  marketBaseline v
  <= lookupBaseline (Some "Honda"%string) (Some "Pridor"%string) /\
  (getFullYear Sample.jan2025 = getFullYear Sample.dec2025 ->
   rate == Qmin (inject_Z (Z.of_nat 7) * 0.08) 0.5).
Proof.
  apply (offered_years_depreciate Sample.jan2025 Sample.dec2025
           (Some "Honda"%string) (Some "Pridor"%string) 9.4 7 2018).
  - cbn. lia.
  - reflexivity.
Defined.

(** ** The navigation of the layout *)

Module Layout.

Import JSString.

Local Open Scope string_scope.

Record NavigationItem : Type := mkNavigationItem {
  name : string;
  href : string;
  testId : string
}.

(** lines 160-197; [role] is [user?.role] *)
Definition navigationItems (role : option string)
    : list NavigationItem :=
  [ mkNavigationItem "Dashboard" "/dashboard" "nav-dashboard";
    mkNavigationItem "New Inspection" "/new-inspection"
                     "nav-new-inspection";
    mkNavigationItem "Inspection History" "/inspection-history"
                     "nav-history";
    mkNavigationItem "Reports" "/reports" "nav-reports" ]
  ++ (match role with
      | Some r =>
          if String.eqb r "admin"
          then [ mkNavigationItem "Admin Panel" "/admin" "nav-admin" ]
          else []
      | None => []
      end)
  ++ [ mkNavigationItem "Profile Settings" "/profile" "nav-profile" ].

(** lines 199-203 *)
Definition isActive (location href : string) : bool :=
  if String.eqb href "/" && String.eqb location "/" then true
  else if negb (String.eqb href "/") && startsWith location href then true
  else false.

Definition titles : JS.object string :=
  [ ("/", "Dashboard");
    ("/dashboard", "Dashboard");
    ("/new-inspection", "New Inspection");
    ("/inspection-history", "Inspection History");
    ("/reports", "Reports");
    ("/admin", "Admin Panel");
    ("/profile", "Profile Settings") ].

(** lines 358-375 *)
Definition getPageTitle (location : string) : string :=
  if includes location "/inspection/" && includes location "/results"
  then "Inspection Results"
  else orElse (JS.get titles location) "BikeCheck".

(** The items the side bar highlights at a location. *)
Definition activeItems (role : option string) (location : string)
    : list NavigationItem :=
  filter (fun item => isActive location (href item))
         (navigationItems role).

End Layout.

Lemma prefix_cons (a b : ascii) (p s : string) :
  String.prefix (String a p) (String b s)
  = (Ascii.eqb a b && String.prefix p s)%bool.
Proof.
  cbn [String.prefix].
  destruct (Ascii.ascii_dec a b) as [ -> | Hne ].
  - rewrite Ascii.eqb_refl. reflexivity.
  - apply Ascii.eqb_neq in Hne. rewrite Hne. reflexivity.
Qed.

Lemma prefix_empty (a : ascii) (p : string) :
  String.prefix (String a p) EmptyString = false.
Proof. reflexivity. Qed.

(** Decide the character tests of a goal. *)
Ltac char_tests :=
  repeat match goal with
  | |- context [Ascii.eqb ?a ?b] =>
      first
        [ is_var b; destruct (Ascii.eqb_spec a b) as [ <- | ? ]
        | let v := eval vm_compute in (Ascii.eqb a b) in
          change (Ascii.eqb a b) with v ];
      cbn -[String.prefix Ascii.eqb]
  end.

Lemma at_most_one_active (role : option string) (location : string) :
  (length (Layout.activeItems role location) <= 1)%nat.
Proof.
  unfold Layout.activeItems, Layout.navigationItems.
  assert (Hadmin :
    forall items,
      (items = [] \/
       items = [ Layout.mkNavigationItem "Admin Panel" "/admin"
                   "nav-admin" ]) ->
      (length
         (filter (fun item => Layout.isActive location (Layout.href item))
            ([ Layout.mkNavigationItem "Dashboard" "/dashboard"
                 "nav-dashboard";
               Layout.mkNavigationItem "New Inspection" "/new-inspection"
                 "nav-new-inspection";
               Layout.mkNavigationItem "Inspection History"
                 "/inspection-history" "nav-history";
               Layout.mkNavigationItem "Reports" "/reports" "nav-reports" ]
             ++ items
             ++ [ Layout.mkNavigationItem "Profile Settings" "/profile"
                    "nav-profile" ])) <= 1)%nat).
  { intros items [-> | ->];
      unfold Layout.isActive, JSString.startsWith;
      destruct location as [ | c0 [ | c1 rest ] ];
      cbn -[String.prefix Ascii.eqb];
      rewrite ?prefix_cons, ?prefix_empty, ?andb_false_r;
      cbn -[String.prefix Ascii.eqb]; try lia;
      char_tests; try lia;
      match goal with
      | |- context [String.prefix ?p rest] =>
          destruct (String.prefix p rest); cbn; lia
      end. }
  apply Hadmin.
  destruct role as [ r | ]; [ destruct (String.eqb r "admin") | ];
    [ right | left | left ]; reflexivity.
Qed.

Lemma title_names_active_item (role : option string) (location : string)
    (item : Layout.NavigationItem) :
  location <> "/"%string ->
  In item (Layout.navigationItems role) ->
  Layout.name item = Layout.getPageTitle location ->
  Layout.isActive location (Layout.href item) = true.
Proof.
  intros Hhome Hin Hname.
  assert (Hitems :
    In item
      [ Layout.mkNavigationItem "Dashboard" "/dashboard" "nav-dashboard";
        Layout.mkNavigationItem "New Inspection" "/new-inspection"
          "nav-new-inspection";
        Layout.mkNavigationItem "Inspection History" "/inspection-history"
          "nav-history";
        Layout.mkNavigationItem "Reports" "/reports" "nav-reports";
        Layout.mkNavigationItem "Admin Panel" "/admin" "nav-admin";
        Layout.mkNavigationItem "Profile Settings" "/profile"
          "nav-profile" ]).
  { unfold Layout.navigationItems in Hin.
    destruct role as [ r | ]; [ destruct (String.eqb r "admin") | ];
      cbn in Hin; cbn; tauto. }
  clear Hin. unfold Layout.getPageTitle in Hname.
  destruct (JSString.includes location "/inspection/"
            && JSString.includes location "/results")%bool.
  - cbn in Hitems.
    repeat (destruct Hitems as [ <- | Hitems ]; [ discriminate Hname | ]).
    contradiction.
  - destruct (JS.get Layout.titles location) as [ t | ] eqn:E.
    + apply get_In in E. cbn in E.
      repeat (destruct E as [ E | E ];
              [ injection E as <- <-;
                first [ contradiction Hhome; reflexivity
                      | cbn in Hitems, Hname;
                        repeat (destruct Hitems as [ <- | Hitems ];
                                [ first [ discriminate Hname
                                        | reflexivity ] | ]);
                        contradiction ]
              | ]).
      contradiction.
    + cbn in Hitems, Hname.
      repeat (destruct Hitems as [ <- | Hitems ]; [ discriminate Hname | ]).
      contradiction.
Qed.

(** X17: at every location and for every role the side bar highlights
    at most one navigation item; on the home route "/" it highlights
    none, although the header reads "Dashboard" there; at every other
    location a navigation item that carries the page title shown in the
    header is highlighted. *)
Theorem navigation_highlight (role : option string) (location : string)
    (item : Layout.NavigationItem) :
  (length (Layout.activeItems role location) <= 1)%nat /\
  Layout.activeItems role "/" = [] /\
  Layout.getPageTitle "/" = "Dashboard"%string /\
  (location <> "/"%string ->
   In item (Layout.navigationItems role) ->
   Layout.name item = Layout.getPageTitle location ->
   In item (Layout.activeItems role location)).
Proof.
  split; [ apply at_most_one_active | ]. split.
  - unfold Layout.activeItems, Layout.navigationItems.
    destruct role as [ r | ]; [ destruct (String.eqb r "admin") | ];
      reflexivity.
  - split; [ reflexivity | ].
    intros Hhome Hin Hname. unfold Layout.activeItems.
    apply filter_In. split; [ exact Hin | ].
    apply (title_names_active_item role); assumption.
Qed.

Lemma navigation_highlight_witness :
  In (Layout.mkNavigationItem "Reports" "/reports" "nav-reports")
     (Layout.activeItems (Some "inspector"%string) "/reports").
Proof.
  apply (navigation_highlight (Some "inspector"%string) "/reports"
           (Layout.mkNavigationItem "Reports" "/reports" "nav-reports")).
  - discriminate.
  - cbn. tauto.
  - reflexivity.
Defined.

(** ** The search box of the history page *)













(** ** The issues list of the results page *)








(** ** The seeded scoring rules and the engine *)

(** The values a category object of the payload holds. *)
Inductive JSValue : Type :=
| VBool (b : bool)
| VString (s : string)
| VNumber (x : Q).

(** The category records seen as the objects they are in the payload:
    property name to value. *)
Module Payload.

Local Open Scope string_scope.

Definition engine (e : EngineData.t) : JS.object JSValue :=
  [ ("oilLeaks", VString (EngineData.oilLeaks e));
    ("smoke", VString (EngineData.smoke e));
    ("abnormalNoise", VBool (EngineData.abnormalNoise e));
    ("hardStart", VBool (EngineData.hardStart e));
    ("overheating", VBool (EngineData.overheating e)) ].

Definition frame (f : FrameData.t) : JS.object JSValue :=
  [ ("cracks", VBool (FrameData.cracks f));
    ("rust", VBool (FrameData.rust f));
    ("bends", VBool (FrameData.bends f));
    ("repaintMarks", VBool (FrameData.repaintMarks f)) ].

Definition suspension (s : SuspensionData.t) : JS.object JSValue :=
  [ ("leakage", VBool (SuspensionData.leakage s));
    ("stiffness", VBool (SuspensionData.stiffness s));
    ("abnormalSound", VBool (SuspensionData.abnormalSound s)) ].

Definition brakes (b : BrakesData.t Q) : JS.object JSValue :=
  [ ("padRemaining", VNumber (BrakesData.padRemaining b));
    ("discWarp", VBool (BrakesData.discWarp b));
    ("fluidLeak", VBool (BrakesData.fluidLeak b));
    ("absStatus", VBool (BrakesData.absStatus b)) ].

Definition tires (t : TiresData.t Q) : JS.object JSValue :=
  [ ("treadRemaining", VNumber (TiresData.treadRemaining t));
    ("cracks", VBool (TiresData.cracks t));
    ("mismatchedPair", VBool (TiresData.mismatchedPair t));
    ("ageOver5Years", VBool (TiresData.ageOver5Years t)) ].

Definition electricals (e : ElectricalsData.t) : JS.object JSValue :=
  [ ("lights", VBool (ElectricalsData.lights e));
    ("indicators", VBool (ElectricalsData.indicators e));
    ("horn", VBool (ElectricalsData.horn e));
    ("starter", VBool (ElectricalsData.starter e));
    ("batteryCondition", VString (ElectricalsData.batteryCondition e)) ].

Definition body (b : BodyData.t Q) : JS.object JSValue :=
  [ ("minorScratches", VNumber (BodyData.minorScratches b));
    ("bigScratches", VNumber (BodyData.bigScratches b));
    ("smallDents", VNumber (BodyData.smallDents b));
    ("bigDents", VNumber (BodyData.bigDents b));
    ("cracks", VBool (BodyData.cracks b));
    ("repaintPanels", VBool (BodyData.repaintPanels b));
    ("fairingCondition", VString (BodyData.fairingCondition b)) ].

Definition documents (d : DocumentsData.t) : JS.object JSValue :=
  [ ("registration", VBool (DocumentsData.registration d));
    ("importPapers", VBool (DocumentsData.importPapers d));
    ("serviceRecords", VBool (DocumentsData.serviceRecords d)) ].

End Payload.

(** The scoring rules the seed script inserts (seed script, lines
    294-378). *)
Module Seed.

Local Open Scope string_scope.





End Seed.































